(** * MD-to-PDF: the Markdown-to-document pipeline of [lib/converter.js]

    A shallow embedding of the content sanitizer ([cleanMarkdownContent]),
    the heading indexer ([extractHeadings]), the TOC renderer
    ([generateTocHtml]), the document assembler ([generateFullHtml]) and the
    orchestrator ([convertMdToPdf]), with the properties of the
    specification stated and proved over it. *)

From Stdlib Require Import NArith Ascii String DecimalString Lia.
From stdpp Require Import base tactics option list.

Local Open Scope N_scope.

(** ** JavaScript strings

    A JavaScript string is a sequence of UTF-16 code units; the regular
    expressions of the converter (none carries the [u] flag) and
    [String.prototype] methods work on these units. *)

Abbreviation jsstring := (list N).

(** [js "..."] is the string literal with the given ASCII text. *)
Fixpoint js (s : string) : jsstring :=
  match s with
  | EmptyString => []
  | String a s' => N_of_ascii a :: js s'
  end.

Arguments js : simpl never.

Definition dquote : jsstring := [34].
Definition newline : jsstring := [10].

(** [s.startsWith(p)], the test behind every literal pattern below. *)
Fixpoint startsWith (p s : jsstring) : bool :=
  match p, s with
  | [], _ => true
  | a :: p', b :: s' => (a =? b) && startsWith p' s'
  | _ :: _, [] => false
  end.

(** [s.replace(/pat/g, rep)] for a pattern that is a non-empty literal and a
    replacement without [$]: the matches are found left to right and do not
    overlap (after a match the scan resumes behind it).  [skip] counts the
    units of the current match that are still to be consumed. *)
Fixpoint replaceAllFrom (pat rep : jsstring) (skip : nat) (s : jsstring) : jsstring :=
  match s with
  | [] => []
  | c :: s' =>
      match skip with
      | S k => replaceAllFrom pat rep k s'
      | O => if startsWith pat s
             then rep ++ replaceAllFrom pat rep (Nat.pred (length pat)) s'
             else c :: replaceAllFrom pat rep O s'
      end
  end.

Definition replaceAll (pat rep s : jsstring) : jsstring :=
  replaceAllFrom pat rep O s.

(** The lazy [[\s\S]*?] followed by the literal [pat]: what is left of [s]
    behind the first occurrence of [pat], if there is one.  [[\s\S]] matches
    every code unit, line terminators included. *)
Fixpoint afterFirst (pat s : jsstring) : option jsstring :=
  if startsWith pat s then Some (drop (length pat) s)
  else match s with
       | [] => None
       | _ :: s' => afterFirst pat s'
       end.

(** ** Content sanitizer: [cleanMarkdownContent] *)

(** The class [[\u200B-\u200D\uFEFF]]. *)
Definition isInvisible (c : N) : bool :=
  ((0x200B <=? c) && (c <=? 0x200D)) || (c =? 0xFEFF).

(** [rawContent.replace(/[\u200B-\u200D\uFEFF]/g, '')] *)
Definition removeInvisible (s : jsstring) : jsstring :=
  List.filter (fun c => negb (isInvisible c)) s.

(** [cleanContent.replace(/ & /g, ' &amp; ')] *)
Definition escapeAmpersands (s : jsstring) : jsstring :=
  replaceAll (js " & ") (js " &amp; ") s.

(** [cleanContent.replace(/^---[\s\S]*?---/, '')]: no [m] flag, so [^] is
    the start of the text; no [g] flag, so at most one match is replaced. *)
Definition removeFrontMatter (s : jsstring) : jsstring :=
  if startsWith (js "---") s then
    match afterFirst (js "---") (drop 3 s) with
    | Some rest => rest
    | None => s
    end
  else s.

Definition cleanMarkdownContent (rawContent : jsstring) : jsstring :=
  let cleanContent := removeInvisible rawContent in
  let cleanContent := escapeAmpersands cleanContent in
  let cleanContent := removeFrontMatter cleanContent in
  cleanContent.

(** ** Heading indexer: [extractHeadings] *)

(** A token of the [marked] lexer, as far as the converter reads or writes
    it: the tag [type], and for a heading its [depth] and its inline source
    [text]; [raw] stands for the properties the converter never touches. *)
Module Token.
Record t : Type := mk { type : jsstring; depth : nat; text : jsstring; raw : jsstring }.
End Token.

(** An entry of the table of contents. *)
Module TocEntry.
Record t : Type := mk { anchor : jsstring; level : nat; text : jsstring }.
End TocEntry.

(** A regular expression object is used through [test] only.  The patterns
    of the converter carry at most the [i] flag, so [test] has no state
    ([lastIndex] is only used under [g] or [y]). *)
Record RegExp : Type := { test : jsstring -> bool }.

(** The engine's Unicode case conversion, for strings that hold a code unit
    outside ASCII; it is not part of the repository. *)
Class UnicodeData : Type := { unicodeLower : jsstring -> jsstring }.

Definition isUpperAscii (c : N) : bool := (65 <=? c) && (c <=? 90).
Definition asciiLower (c : N) : N := if isUpperAscii c then c + 32 else c.
Definition isAscii (c : N) : bool := c <? 128.

(** [s.toLowerCase()] *)
Definition toLowerCase `{UnicodeData} (s : jsstring) : jsstring :=
  if forallb isAscii s then map asciiLower s else unicodeLower s.

(** [s.includes(p)] *)
Fixpoint includes (p s : jsstring) : bool :=
  startsWith p s ||
  match s with
  | [] => false
  | _ :: s' => includes p s'
  end.

(** A pattern of ASCII words under the [i] flag: without the [u] flag a code
    unit outside ASCII is never identified with an ASCII one, so folding the
    ASCII letters is all the flag does. *)
Definition includesIgnoreCase (word s : jsstring) : bool :=
  includes (map asciiLower word) (map asciiLower s).

(** [/Topic|Summary|Section|Detailed/i] *)
Definition defaultTocFilter : RegExp :=
  {| test s := existsb (fun word => includesIgnoreCase word s)
                 [js "Topic"; js "Summary"; js "Section"; js "Detailed"] |}.

(** WhiteSpace and LineTerminator of ECMAScript, the units [trim] strips. *)
Definition isWhiteSpace (c : N) : bool :=
  ((9 <=? c) && (c <=? 13)) || (c =? 32) || (c =? 0xA0) || (c =? 0x1680) ||
  ((0x2000 <=? c) && (c <=? 0x200A)) || (c =? 0x2028) || (c =? 0x2029) ||
  (c =? 0x202F) || (c =? 0x205F) || (c =? 0x3000) || (c =? 0xFEFF).

Fixpoint dropWhile (f : N -> bool) (s : jsstring) : jsstring :=
  match s with
  | [] => []
  | c :: s' => if f c then dropWhile f s' else s
  end.

Definition trimStart (s : jsstring) : jsstring := dropWhile isWhiteSpace s.
Definition trimEnd (s : jsstring) : jsstring := rev (dropWhile isWhiteSpace (rev s)).

(** [s.trim()] *)
Definition trim (s : jsstring) : jsstring := trimEnd (trimStart s).

(** The class [\w] (no [i], no [u] flag). *)
Definition isWordChar (c : N) : bool :=
  ((48 <=? c) && (c <=? 57)) || ((65 <=? c) && (c <=? 90)) || (c =? 95) ||
  ((97 <=? c) && (c <=? 122)).

(** [s.replace(/[^\w]+/g, '-')]: [inRun] tells that the unit before was
    part of the run of non-word units being replaced. *)
Fixpoint replaceNonWordRunsFrom (inRun : bool) (s : jsstring) : jsstring :=
  match s with
  | [] => []
  | c :: s' =>
      if isWordChar c then c :: replaceNonWordRunsFrom false s'
      else if inRun then replaceNonWordRunsFrom true s'
      else 45 :: replaceNonWordRunsFrom true s'
  end.

Definition replaceNonWordRuns (s : jsstring) : jsstring :=
  replaceNonWordRunsFrom false s.

(** [const cleanText = token.text.replace(/\*\*/g, '').replace(/\*/g, '').trim()] *)
Definition cleanText (text : jsstring) : jsstring :=
  trim (replaceAll (js "*") [] (replaceAll (js "**") [] text)).

(** [const anchor = cleanText.toLowerCase().replace(/[^\w]+/g, '-')] *)
Definition anchor `{UnicodeData} (cleanText : jsstring) : jsstring :=
  replaceNonWordRuns (toLowerCase cleanText).

(** A number in a template literal; depths are small natural numbers. *)
Definition numberToString (n : nat) : jsstring :=
  js (NilEmpty.string_of_uint (Nat.to_uint n)).

(** [`<h${token.depth} id="${anchor}">${cleanText}</h${token.depth}>`] *)
Definition headingHtml (depth : nat) (anchor cleanText : jsstring) : jsstring :=
  js "<h" ++ numberToString depth ++ js " id=" ++ dquote ++ anchor ++ dquote ++
  js ">" ++ cleanText ++ js "</h" ++ numberToString depth ++ js ">".

(** The options object of [extractHeadings]; an absent property takes its
    default in the destructuring. *)
Record ExtractOptions : Type :=
  { tocFilter : option RegExp; maxDepth : option nat }.

Definition isHeading (token : Token.t) : bool :=
  bool_decide (Token.type token = js "heading").

(** The body of the [forEach] callback: [toc] is the array of entries built
    so far and [seen] the tokens already visited, as the callback left
    them. *)
Definition visitToken `{UnicodeData} (tocFilter : RegExp) (maxDepth : nat)
    (acc : list TocEntry.t * list Token.t) (token : Token.t)
    : list TocEntry.t * list Token.t :=
  let '(toc, seen) := acc in
  if isHeading token && (Token.depth token <=? maxDepth)%nat then
    let cleanText := cleanText (Token.text token) in
    let anchor := anchor cleanText in
    let isImportant := test tocFilter cleanText in
    let toc :=
      if isImportant
      then toc ++ [ {| TocEntry.anchor := anchor;
                       TocEntry.level := Token.depth token;
                       TocEntry.text := cleanText |} ]
      else toc in
    let token :=
      {| Token.type := js "html";
         Token.depth := Token.depth token;
         Token.text := headingHtml (Token.depth token) anchor cleanText;
         Token.raw := Token.raw token |} in
    (toc, seen ++ [token])
  else (toc, seen ++ [token]).

(** [extractHeadings(tokens, options)] returns the entries; the second
    component is the array [tokens] as the call leaves it.  The elements of
    the array are taken to be distinct objects, as they are in the array
    that [marked.lexer] builds. *)
Definition extractHeadings `{UnicodeData} (tokens : list Token.t)
    (options : ExtractOptions) : list TocEntry.t * list Token.t :=
  let tocFilter := default defaultTocFilter (tocFilter options) in
  let maxDepth := default 4%nat (maxDepth options) in
  fold_left (visitToken tocFilter maxDepth) tokens ([], []).

(** ** TOC renderer: [generateTocHtml] *)

(** One turn of the [forEach] of the renderer. *)
Definition tocItemHtml (entry : TocEntry.t) : jsstring :=
  let indentClass := if (3 <? TocEntry.level entry)%nat then js "toc-indent" else [] in
  js "<li class=" ++ dquote ++ indentClass ++ dquote ++ js "><a href=" ++ dquote ++
  js "#" ++ TocEntry.anchor entry ++ dquote ++ js ">" ++ TocEntry.text entry ++
  js "</a></li>".

Definition tocOpening (title : jsstring) : jsstring :=
  newline ++ js "    <div class=" ++ dquote ++ js "toc" ++ dquote ++ js ">" ++
  newline ++ js "        <h1>" ++ title ++ js "</h1>" ++
  newline ++ js "        <ul>" ++
  newline ++ js "    ".

Definition tocClosing : jsstring :=
  js "</ul></div><div class=" ++ dquote ++ js "page-break" ++ dquote ++ js "></div>".

(** [generateTocHtml(toc, title)]; an absent [title] is 'Table of Contents'. *)
Definition generateTocHtml (toc : list TocEntry.t) (title : option jsstring) : jsstring :=
  let title := default (js "Table of Contents") title in
  let tocHtml := tocOpening title in
  let tocHtml := fold_left (fun tocHtml entry => tocHtml ++ tocItemHtml entry) toc tocHtml in
  let tocHtml := tocHtml ++ tocClosing in
  tocHtml.

(** ** Document assembler: [generateFullHtml] *)

(** The exports of [lib/styles.js]. *)
Record Styles : Type :=
  { defaultStyles : jsstring; footerTemplate : jsstring; headerTemplate : jsstring;
    highlightTheme : jsstring; mathJaxUrl : jsstring }.

(** The lines of a template literal, joined by line feeds. *)
Definition joinLines (lines : list jsstring) : jsstring :=
  concat (map (fun line => newline ++ line) lines).

(** [generateFullHtml(tocHtml, bodyContent, options)]; an absent
    [customStyles] is the empty string. *)
Definition generateFullHtml (styles : Styles) (tocHtml bodyContent : jsstring)
    (customStyles : option jsstring) : jsstring :=
  let customStyles := default [] customStyles in
  joinLines
    [ js "    <!DOCTYPE html>";
      js "    <html>";
      js "    <head>";
      js "        <meta charset=" ++ dquote ++ js "UTF-8" ++ dquote ++ js ">";
      js "        <link rel=" ++ dquote ++ js "stylesheet" ++ dquote ++ js " href=" ++
        dquote ++ highlightTheme styles ++ dquote ++ js ">";
      js "        <script>";
      js "        window.MathJax = {";
      js "            tex: { inlineMath: [['$', '$'], ['\\(', '\\)']] },";
      js "            svg: { fontCache: 'global' }";
      js "        };";
      js "        </script>";
      js "        <script id=" ++ dquote ++ js "MathJax-script" ++ dquote ++
        js " async src=" ++ dquote ++ mathJaxUrl styles ++ dquote ++ js "></script>";
      js "        <style>";
      js "            " ++ defaultStyles styles;
      js "            " ++ customStyles;
      js "        </style>";
      js "    </head>";
      js "    <body>";
      js "        " ++ tocHtml;
      js "        " ++ bodyContent;
      js "    </body>";
      js "    </html>";
      js "    " ].

(** ** Conversion orchestrator: [convertMdToPdf] *)

(** How a call ends: it returns a value, or it throws.  For the [async]
    orchestrator these are the promise fulfilled with the value and the
    promise rejected.  A thrown [Error] is identified with its [message]. *)
Inductive outcome (A : Type) : Type :=
  | Returned (value : A)
  | Thrown (message : jsstring).
Arguments Returned {A} value.
Arguments Thrown {A} message.

#[global] Instance outcome_ret : MRet outcome := fun A value => Returned value.
#[global] Instance outcome_bind : MBind outcome := fun A B f call =>
  match call with
  | Returned value => f value
  | Thrown message => Thrown message
  end.

(** [try { body } catch (error) { handler }], the handler reading
    [error.message]. *)
Definition tryCatch {A : Type} (body : outcome A) (handler : jsstring -> outcome A)
    : outcome A :=
  match body with
  | Returned value => Returned value
  | Thrown message => handler message
  end.

(** The argument of [page.pdf]. *)
Record Margin : Type :=
  { top : jsstring; bottom : jsstring; left : jsstring; right : jsstring }.
Record PdfOptions : Type :=
  { path : jsstring; pdfFormat : jsstring; pdfLandscape : bool; printBackground : bool;
    margin : Margin; displayHeaderFooter : bool;
    pdfFooterTemplate : jsstring; pdfHeaderTemplate : jsstring }.

(** The collaborators of the orchestrator: the process, the file system,
    [marked], the regular-expression engine and [puppeteer-core].  Calls
    that can throw have an [outcome]. *)
Record World : Type :=
  { platform : jsstring;
    LOCALAPPDATA : option jsstring;
    styles : Styles;
    path_resolve : jsstring -> jsstring;
    fs_existsSync : jsstring -> bool;
    fs_readFileSync : jsstring -> outcome jsstring;
    marked_setOptions : outcome unit;
    marked_lexer : jsstring -> outcome (list Token.t);
    marked_parser : list Token.t -> outcome jsstring;
    RegExp_new : jsstring -> jsstring -> outcome RegExp;
    puppeteer_launch : jsstring -> bool -> outcome nat;
    browser_newPage : nat -> outcome nat;
    page_setContent : nat -> jsstring -> jsstring -> outcome unit;
    page_pdf : nat -> PdfOptions -> outcome unit;
    browser_close : nat -> outcome unit }.

(** [CHROME_PATHS[platform] || []]; an undefined environment variable
    concatenates as the text undefined. *)
Definition CHROME_PATHS (w : World) : list jsstring :=
  if bool_decide (platform w = js "win32") then
    [ js "C:\Program Files\Google\Chrome\Application\chrome.exe";
      js "C:\Program Files (x86)\Google\Chrome\Application\chrome.exe";
      default (js "undefined") (LOCALAPPDATA w) ++
        js "\Google\Chrome\Application\chrome.exe";
      js "C:\Program Files\Microsoft\Edge\Application\msedge.exe";
      js "C:\Program Files (x86)\Microsoft\Edge\Application\msedge.exe" ]
  else if bool_decide (platform w = js "darwin") then
    [ js "/Applications/Google Chrome.app/Contents/MacOS/Google Chrome";
      js "/Applications/Microsoft Edge.app/Contents/MacOS/Microsoft Edge";
      js "/Applications/Chromium.app/Contents/MacOS/Chromium" ]
  else if bool_decide (platform w = js "linux") then
    [ js "/usr/bin/google-chrome";
      js "/usr/bin/chromium-browser";
      js "/usr/bin/chromium";
      js "/snap/bin/chromium";
      js "/usr/bin/microsoft-edge" ]
  else [].

(** A string is truthy when it is not empty. *)
Definition truthy (s : jsstring) : bool := negb (bool_decide (s = [])).

Definition findChromePath (w : World) : option jsstring :=
  List.find (fun chromePath => truthy chromePath && fs_existsSync w chromePath)
    (CHROME_PATHS w).

Definition configureMarked (w : World) : outcome unit := marked_setOptions w.

(** The options of [convertMdToPdf]; an absent property is [None]. *)
Module ConversionOptions.
Record t : Type :=
  { chromePath : option jsstring; noToc : option bool; tocTitle : option jsstring;
    tocFilter : option jsstring; format : option jsstring; landscape : option bool;
    marginTop : option jsstring; marginBottom : option jsstring;
    marginLeft : option jsstring; marginRight : option jsstring }.
End ConversionOptions.

(** [{success, message, outputPath?}] *)
Record ConversionResult : Type :=
  { success : bool; message : jsstring; outputPath : option jsstring }.

(** The statements of the [try] block up to [browser.close()]. *)
Definition printPdf (w : World) (chromePath fullHtml : jsstring) (pdfOptions : PdfOptions)
    : outcome unit :=
  browser ← puppeteer_launch w chromePath true;
  page ← browser_newPage w browser;
  _ ← page_setContent w page fullHtml (js "networkidle0");
  _ ← page_pdf w page pdfOptions;
  browser_close w browser.

(** [customChromePath || findChromePath()] *)
Definition resolveChromePath (w : World) (customChromePath : option jsstring)
    : option jsstring :=
  match customChromePath with
  | Some chromePath => if truthy chromePath then Some chromePath else findChromePath w
  | None => findChromePath w
  end.

Definition convertMdToPdf `{UnicodeData} (w : World) (inputFile outputFile : jsstring)
    (options : ConversionOptions.t) : outcome ConversionResult :=
  let customChromePath := ConversionOptions.chromePath options in
  let noToc := default false (ConversionOptions.noToc options) in
  let tocTitle := default (js "Table of Contents") (ConversionOptions.tocTitle options) in
  let tocFilter :=
    default (js "Topic|Summary|Section|Detailed") (ConversionOptions.tocFilter options) in
  let format := default (js "A4") (ConversionOptions.format options) in
  let landscape := default false (ConversionOptions.landscape options) in
  let marginTop := default (js "25.4mm") (ConversionOptions.marginTop options) in
  let marginBottom := default (js "25.4mm") (ConversionOptions.marginBottom options) in
  let marginLeft := default (js "25.4mm") (ConversionOptions.marginLeft options) in
  let marginRight := default (js "25.4mm") (ConversionOptions.marginRight options) in
  let inputPath := path_resolve w inputFile in
  let outputPath := path_resolve w outputFile in
  if negb (fs_existsSync w inputPath) then
    mret {| success := false;
            message := js "Input file not found: " ++ dquote ++ inputFile ++ dquote;
            outputPath := None |}
  else
    match resolveChromePath w customChromePath with
    | None =>
        mret {| success := false;
                message := js "Chrome/Chromium not found. Please install Chrome or specify path with --chrome-path";
                outputPath := None |}
    | Some chromePath =>
        _ ← configureMarked w;
        rawContent ← fs_readFileSync w inputPath;
        let cleanContent := cleanMarkdownContent rawContent in
        tokens ← marked_lexer w cleanContent;
        tocFilterRegex ← RegExp_new w tocFilter (js "i");
        let '(toc, tokens) :=
          extractHeadings tokens {| tocFilter := Some tocFilterRegex; maxDepth := None |} in
        bodyContent ← marked_parser w tokens;
        let tocHtml := if noToc then [] else generateTocHtml toc (Some tocTitle) in
        let fullHtml := generateFullHtml (styles w) tocHtml bodyContent None in
        tryCatch
          (_ ← printPdf w chromePath fullHtml
                 {| path := outputPath; pdfFormat := format; pdfLandscape := landscape;
                    printBackground := true;
                    margin := {| top := marginTop; bottom := marginBottom;
                                 left := marginLeft; right := marginRight |};
                    displayHeaderFooter := true;
                    pdfFooterTemplate := footerTemplate (styles w);
                    pdfHeaderTemplate := headerTemplate (styles w) |};
           mret {| success := true;
                   message := js "PDF generated successfully: " ++ dquote ++ outputFile ++ dquote;
                   outputPath := Some outputPath |})
          (fun error =>
             mret {| success := false;
                     message := js "PDF generation failed: " ++ error;
                     outputPath := None |})
    end.

(** ** Vocabulary of the statements *)

(** [/^---[\s\S]*?---/.test(s)]: the text starts with three hyphens and has
    three more behind them. *)
Definition hasFrontMatter (s : jsstring) : bool :=
  startsWith (js "---") s && includes (js "---") (drop 3 s).

(** The units that the entity adds: a, m, p and the semicolon. *)
Definition isEntityUnit (c : N) : bool :=
  (c =? 97) || (c =? 109) || (c =? 112) || (c =? 59).

(** The number of units of a text that are none of these. *)
Definition otherUnits (s : jsstring) : nat :=
  length (List.filter (fun c => negb (isEntityUnit c)) s).

(** The heading is one the indexer handles: [token.type === 'heading' &&
    token.depth <= maxDepth]. *)
Definition indexed (maxDepth : nat) (token : Token.t) : bool :=
  isHeading token && (Token.depth token <=? maxDepth)%nat.

(** The anchored markup block that replaces a heading. *)
Definition anchoredToken `{UnicodeData} (token : Token.t) : Token.t :=
  {| Token.type := js "html";
     Token.depth := Token.depth token;
     Token.text := headingHtml (Token.depth token)
                     (anchor (cleanText (Token.text token)))
                     (cleanText (Token.text token));
     Token.raw := Token.raw token |}.

(** The entry a heading gives when the filter lets it through. *)
Definition tocEntryOf `{UnicodeData} (token : Token.t) : TocEntry.t :=
  {| TocEntry.anchor := anchor (cleanText (Token.text token));
     TocEntry.level := Token.depth token;
     TocEntry.text := cleanText (Token.text token) |}.

(** The entries of one token: at most one. *)
Definition entriesOf `{UnicodeData} (tocFilter : RegExp) (maxDepth : nat)
    (token : Token.t) : list TocEntry.t :=
  if indexed maxDepth token && test tocFilter (cleanText (Token.text token))
  then [tocEntryOf token] else [].

(** What the indexer leaves at the place of a token. *)
Definition reindexed `{UnicodeData} (maxDepth : nat) (token : Token.t) : Token.t :=
  if indexed maxDepth token then anchoredToken token else token.

(** The options the orchestrator passes to the indexer. *)
Definition orchestratorOptions (tocFilterRegex : RegExp) : ExtractOptions :=
  {| tocFilter := Some tocFilterRegex; maxDepth := None |}.

(** The argument the orchestrator gives to [page.pdf]. *)
Definition pdfOptionsOf (w : World) (outputFile : jsstring) (options : ConversionOptions.t)
    : PdfOptions :=
  {| path := path_resolve w outputFile;
     pdfFormat := default (js "A4") (ConversionOptions.format options);
     pdfLandscape := default false (ConversionOptions.landscape options);
     printBackground := true;
     margin :=
       {| top := default (js "25.4mm") (ConversionOptions.marginTop options);
          bottom := default (js "25.4mm") (ConversionOptions.marginBottom options);
          left := default (js "25.4mm") (ConversionOptions.marginLeft options);
          right := default (js "25.4mm") (ConversionOptions.marginRight options) |};
     displayHeaderFooter := true;
     pdfFooterTemplate := footerTemplate (styles w);
     pdfHeaderTemplate := headerTemplate (styles w) |}.

(** The document the orchestrator assembles from the entries and the body. *)
Definition fullHtmlOf (w : World) (options : ConversionOptions.t)
    (toc : list TocEntry.t) (bodyContent : jsstring) : jsstring :=
  generateFullHtml (styles w)
    (if default false (ConversionOptions.noToc options) then []
     else generateTocHtml toc
            (Some (default (js "Table of Contents") (ConversionOptions.tocTitle options))))
    bodyContent None.

(** ** Sample data *)

(** An engine whose case conversion leaves the units outside ASCII alone. *)
Definition asciiUnicodeData : UnicodeData := {| unicodeLower s := s |}.

(** A pattern that matches every text, the empty one included, such as the
    one of [--toc-filter ".*"]. *)
Definition matchAll : RegExp := {| test _ := true |}.

Definition headingToken (depth : nat) (text : jsstring) : Token.t :=
  {| Token.type := js "heading"; Token.depth := depth; Token.text := text;
     Token.raw := [] |}.

Definition paragraphToken (text : jsstring) : Token.t :=
  {| Token.type := js "paragraph"; Token.depth := 0; Token.text := text;
     Token.raw := text |}.

(** The document of the end-to-end scenario, as [marked] tokenizes it. *)
Definition sampleTokens : list Token.t :=
  [ headingToken 3 (js "Topic One"); paragraphToken (js "Some text.");
    headingToken 5 (js "Deep Heading"); paragraphToken (js "More text.") ].

Definition sampleDocument : jsstring :=
  js "### Topic One" ++ newline ++ newline ++ js "Some text." ++ newline ++ newline ++
  js "##### Deep Heading" ++ newline ++ newline ++ js "More text.".

Definition sampleStyles : Styles :=
  {| defaultStyles := js "body { font-size: 12pt; }";
     footerTemplate := js "<div>Page</div>";
     headerTemplate := js "<div></div>";
     highlightTheme := js "https://cdnjs.cloudflare.com/ajax/libs/highlight.js/11.7.0/styles/arduino-light.min.css";
     mathJaxUrl := js "https://cdn.jsdelivr.net/npm/mathjax@3/es5/tex-mml-chtml.js" |}.

(** A Linux machine with Chromium installed and one readable file,
    /work/notes.md, which holds [sampleDocument]; the lexer answers with
    the tokens of this document.  The regular-expression engine rejects the
    pattern of a lone opening parenthesis, as every engine does, and is
    asked for no other pattern than the default one; [printFails] makes the
    browser fail to start. *)
Definition sampleWorld (printFails : bool) : World :=
  {| platform := js "linux";
     LOCALAPPDATA := None;
     styles := sampleStyles;
     path_resolve file := js "/work/" ++ file;
     fs_existsSync file :=
       bool_decide (file = js "/work/notes.md") || bool_decide (file = js "/usr/bin/chromium");
     fs_readFileSync file :=
       if bool_decide (file = js "/work/notes.md")
       then Returned sampleDocument
       else Thrown (js "ENOENT: no such file or directory");
     marked_setOptions := Returned tt;
     marked_lexer _ := Returned sampleTokens;
     marked_parser tokens := Returned (concat (map Token.text tokens));
     RegExp_new source _ :=
       if bool_decide (source = js "(")
       then Thrown (js "Invalid regular expression: /(/i: Unterminated group")
       else Returned defaultTocFilter;
     puppeteer_launch _ _ :=
       if printFails then Thrown (js "Failed to launch the browser process!")
       else Returned 1%nat;
     browser_newPage _ := Returned 2%nat;
     page_setContent _ _ _ := Returned tt;
     page_pdf _ _ := Returned tt;
     browser_close _ := Returned tt |}.

Definition noOptions : ConversionOptions.t :=
  {| ConversionOptions.chromePath := None; ConversionOptions.noToc := None;
     ConversionOptions.tocTitle := None; ConversionOptions.tocFilter := None;
     ConversionOptions.format := None; ConversionOptions.landscape := None;
     ConversionOptions.marginTop := None; ConversionOptions.marginBottom := None;
     ConversionOptions.marginLeft := None; ConversionOptions.marginRight := None |}.

(** The command line [--toc-filter "("]. *)
Definition badFilterOptions : ConversionOptions.t :=
  {| ConversionOptions.chromePath := None; ConversionOptions.noToc := None;
     ConversionOptions.tocTitle := None; ConversionOptions.tocFilter := Some (js "(");
     ConversionOptions.format := None; ConversionOptions.landscape := None;
     ConversionOptions.marginTop := None; ConversionOptions.marginBottom := None;
     ConversionOptions.marginLeft := None; ConversionOptions.marginRight := None |}.

(** The front-matter example of the specification. *)
Definition frontMatterExample : jsstring :=
  js "---" ++ newline ++ js "key: v" ++ newline ++ js "---" ++ newline ++ js "Body".

(** ** Command line: [cli.js] *)

(** The whole of [s] is [p], up to the case of ASCII letters. *)
Definition equalsIgnoreCase (p s : jsstring) : bool :=
  bool_decide (map asciiLower p = map asciiLower s).

(** [s.replace(/pat$/i, rep)] for a literal ASCII pattern: without the [m]
    flag [$] is the end of the text, so the match, if there is one, is the
    first place from which the rest of the text is the pattern. *)
Fixpoint replaceAtEndIgnoreCase (pat rep s : jsstring) : jsstring :=
  if equalsIgnoreCase pat s then rep
  else match s with
       | [] => []
       | c :: s' => c :: replaceAtEndIgnoreCase pat rep s'
       end.

(** The options object of [commander]: an option with a default is always
    there, [--no-toc] makes [toc] false, and a flag that was not given is
    absent. *)
Module CliOptions.
Record t : Type :=
  { output : option jsstring; chromePath : option jsstring; toc : bool;
    tocTitle : jsstring; tocFilter : jsstring; format : jsstring;
    landscape : option bool;
    marginTop : jsstring; marginBottom : jsstring;
    marginLeft : jsstring; marginRight : jsstring }.
End CliOptions.

(** [const outputFile = options.output || inputFile.replace(/\.md$/i, '.pdf')] *)
Definition outputFileOf (options : CliOptions.t) (inputFile : jsstring) : jsstring :=
  match CliOptions.output options with
  | Some output =>
      if truthy output then output
      else replaceAtEndIgnoreCase (js ".md") (js ".pdf") inputFile
  | None => replaceAtEndIgnoreCase (js ".md") (js ".pdf") inputFile
  end.

(** The colours of [chalk]; what they add to a text depends on the
    terminal. *)
Record Chalk : Type :=
  { cyan : jsstring -> jsstring; gray : jsstring -> jsstring;
    green : jsstring -> jsstring; red : jsstring -> jsstring;
    blue : jsstring -> jsstring; white : jsstring -> jsstring;
    yellow : jsstring -> jsstring }.

(** What a run of the command leaves: the lines of [console.log], those of
    [console.error], and the exit code of the process. *)
Record CliRun : Type :=
  { stdout : list jsstring; stderr : list jsstring; exitCode : nat }.

(** The options [main] hands to [convertMdToPdf]. *)
Definition conversionOptionsOf (options : CliOptions.t) : ConversionOptions.t :=
  {| ConversionOptions.chromePath := CliOptions.chromePath options;
     ConversionOptions.noToc := Some (negb (CliOptions.toc options));
     ConversionOptions.tocTitle := Some (CliOptions.tocTitle options);
     ConversionOptions.tocFilter := Some (CliOptions.tocFilter options);
     ConversionOptions.format := Some (CliOptions.format options);
     ConversionOptions.landscape := CliOptions.landscape options;
     ConversionOptions.marginTop := Some (CliOptions.marginTop options);
     ConversionOptions.marginBottom := Some (CliOptions.marginBottom options);
     ConversionOptions.marginLeft := Some (CliOptions.marginLeft options);
     ConversionOptions.marginRight := Some (CliOptions.marginRight options) |}.

(** [main().catch(...)]: the body of [main] and the handler of the
    rejection, for the package version [version]. *)
Definition main `{UnicodeData} (w : World) (chalk : Chalk) (version : jsstring)
    (options : CliOptions.t) (inputFile : jsstring) : CliRun :=
  let outputFile := outputFileOf options inputFile in
  let rule := gray chalk (replicate 50 0x2500) in
  let chromeLine :=
    match resolveChromePath w (CliOptions.chromePath options) with
    | Some chromePath =>
        green chalk [0x2713] ++ js " Chrome found: " ++ gray chalk chromePath
    | None => red chalk [0x2717] ++ js " Chrome not found"
    end in
  let lines :=
    [ cyan chalk ([0xD83D; 0xDE80] ++ js " md-to-pdf v" ++ version);
      rule;
      chromeLine;
      blue chalk [0x2192] ++ js " Input:  " ++ white chalk inputFile;
      blue chalk [0x2192] ++ js " Output: " ++ white chalk outputFile;
      blue chalk [0x2192] ++ js " Format: " ++ white chalk (CliOptions.format options) ++
        (if default false (CliOptions.landscape options) then js " (landscape)" else []);
      blue chalk [0x2192] ++ js " TOC:    " ++
        white chalk (if CliOptions.toc options then js "Enabled" else js "Disabled");
      rule;
      yellow chalk ([0x23F3] ++ js " Converting...") ] in
  match convertMdToPdf w inputFile outputFile (conversionOptionsOf options) with
  | Returned result =>
      if success result then
        {| stdout := lines ++ [green chalk ([0x2705] ++ js " " ++ message result)];
           stderr := []; exitCode := 0 |}
      else
        {| stdout := lines ++ [red chalk ([0x274C] ++ js " Error: " ++ message result)];
           stderr := []; exitCode := 1 |}
  | Thrown error =>
      {| stdout := lines;
         stderr := [red chalk ([0x274C] ++ js " Unexpected error: " ++ error)];
         exitCode := 1 |}
  end.

(** ** Further vocabulary *)

(** The text holds ASCII units only. *)
Definition isAsciiText (s : jsstring) : Prop := Forall (fun c => isAscii c = true) s.

(** The units of an anchor made from an ASCII text: digits, small letters,
    the underscore and the hyphen. *)
Definition isSlugUnit (c : N) : bool :=
  ((48 <=? c) && (c <=? 57)) || ((97 <=? c) && (c <=? 122)) || (c =? 95) || (c =? 45).

(** The four results [convertMdToPdf] can return. *)
Definition notFoundResult (inputFile : jsstring) : ConversionResult :=
  {| success := false;
     message := js "Input file not found: " ++ dquote ++ inputFile ++ dquote;
     outputPath := None |}.

Definition noChromeResult : ConversionResult :=
  {| success := false;
     message := js "Chrome/Chromium not found. Please install Chrome or specify path with --chrome-path";
     outputPath := None |}.

Definition failedResult (error : jsstring) : ConversionResult :=
  {| success := false; message := js "PDF generation failed: " ++ error;
     outputPath := None |}.

Definition successResult (w : World) (outputFile : jsstring) : ConversionResult :=
  {| success := true;
     message := js "PDF generated successfully: " ++ dquote ++ outputFile ++ dquote;
     outputPath := Some (path_resolve w outputFile) |}.

(** The options with another pattern for the filter. *)
Definition withTocFilter (options : ConversionOptions.t) (tocFilter : jsstring)
    : ConversionOptions.t :=
  {| ConversionOptions.chromePath := ConversionOptions.chromePath options;
     ConversionOptions.noToc := ConversionOptions.noToc options;
     ConversionOptions.tocTitle := ConversionOptions.tocTitle options;
     ConversionOptions.tocFilter := Some tocFilter;
     ConversionOptions.format := ConversionOptions.format options;
     ConversionOptions.landscape := ConversionOptions.landscape options;
     ConversionOptions.marginTop := ConversionOptions.marginTop options;
     ConversionOptions.marginBottom := ConversionOptions.marginBottom options;
     ConversionOptions.marginLeft := ConversionOptions.marginLeft options;
     ConversionOptions.marginRight := ConversionOptions.marginRight options |}.

(** A conversion without table of contents. *)
Definition noTocOptions : ConversionOptions.t :=
  {| ConversionOptions.chromePath := None; ConversionOptions.noToc := Some true;
     ConversionOptions.tocTitle := None; ConversionOptions.tocFilter := None;
     ConversionOptions.format := None; ConversionOptions.landscape := None;
     ConversionOptions.marginTop := None; ConversionOptions.marginBottom := None;
     ConversionOptions.marginLeft := None; ConversionOptions.marginRight := None |}.

(** A terminal without colours. *)
Definition plainChalk : Chalk :=
  {| cyan s := s; gray s := s; green s := s; red s := s; blue s := s;
     white s := s; yellow s := s |}.

(** The options of the command line without any flag. *)
Definition plainCliOptions : CliOptions.t :=
  {| CliOptions.output := None; CliOptions.chromePath := None; CliOptions.toc := true;
     CliOptions.tocTitle := js "Table of Contents";
     CliOptions.tocFilter := js "Topic|Summary|Section|Detailed";
     CliOptions.format := js "A4"; CliOptions.landscape := None;
     CliOptions.marginTop := js "25.4mm"; CliOptions.marginBottom := js "25.4mm";
     CliOptions.marginLeft := js "25.4mm"; CliOptions.marginRight := js "25.4mm" |}.

(** * Properties *)

(** ** Literal patterns *)

Lemma startsWith_true p s : startsWith p s = true <-> exists r, s = p ++ r.
Proof.
  revert s. induction p as [|a p IH]; intros s; simpl.
  - split; [intros _; by exists s | done].
  - destruct s as [|b s]; [split; [done | by intros [r ?]] |].
    rewrite andb_true_iff, N.eqb_eq, IH. split.
    + intros [-> [r ->]]. by exists r.
    + intros [r Hr]. simplify_eq. eauto.
Qed.

Lemma startsWith_app p s : startsWith p (p ++ s) = true.
Proof. apply startsWith_true. by exists s. Qed.

Lemma startsWith_extend p s r : startsWith p s = true -> startsWith p (s ++ r) = true.
Proof.
  rewrite !startsWith_true. intros [q ->]. exists (q ++ r). by rewrite app_assoc.
Qed.

Lemma startsWith_length p s : startsWith p s = true -> (length p <= length s)%nat.
Proof. rewrite startsWith_true. intros [r ->]. rewrite length_app. lia. Qed.

Lemma includes_cons p c s :
  includes p (c :: s) = startsWith p (c :: s) || includes p s.
Proof. done. Qed.

Lemma includes_length p s : includes p s = true -> (length p <= length s)%nat.
Proof.
  induction s as [|c s IH].
  - simpl. rewrite orb_false_r. apply startsWith_length.
  - rewrite includes_cons, orb_true_iff. intros [H|H].
    + by apply startsWith_length.
    + simpl. apply IH in H. lia.
Qed.


(** Without a match the replacement leaves the text as it is. *)
Lemma replaceAll_no_match pat rep s :
  includes pat s = false -> replaceAll pat rep s = s.
Proof.
  unfold replaceAll. induction s as [|c s IH]; [done |].
  rewrite includes_cons, orb_false_iff. intros [Hhere Hlater].
  cbn [replaceAllFrom]. rewrite Hhere. f_equal. by apply IH.
Qed.

(** A match at the start is replaced, and the scan goes on behind it. *)
Lemma replaceAllFrom_skip pat rep k s :
  replaceAllFrom pat rep k s = replaceAllFrom pat rep O (drop k s).
Proof.
  revert s. induction k as [|k IH]; intros [|c s]; simpl; done.
Qed.

Lemma replaceAll_match pat rep s :
  pat <> [] -> replaceAll pat rep (pat ++ s) = rep ++ replaceAll pat rep s.
Proof.
  intros Hpat. unfold replaceAll. destruct pat as [|a pat]; [done |].
  change ((a :: pat) ++ s) with (a :: (pat ++ s)). cbn [replaceAllFrom].
  change (a :: (pat ++ s)) with ((a :: pat) ++ s). rewrite startsWith_app.
  f_equal. rewrite replaceAllFrom_skip. simpl. by rewrite drop_app_length.
Qed.

Lemma replaceAll_no_match_here pat rep c s :
  startsWith pat (c :: s) = false ->
  replaceAll pat rep (c :: s) = c :: replaceAll pat rep s.
Proof. unfold replaceAll. cbn [replaceAllFrom]. by intros ->. Qed.

(** Whatever holds of every unit of the text and of the replacement holds of
    every unit of the result. *)
Lemma replaceAllFrom_Forall (P : N -> Prop) pat rep k s :
  Forall P rep -> Forall P s -> Forall P (replaceAllFrom pat rep k s).
Proof.
  intros Hrep Hs. revert k. induction Hs as [|c s Hc Hs IH]; intros k; [done |].
  cbn [replaceAllFrom]. destruct k as [|k]; [| apply IH].
  destruct (startsWith pat (c :: s)).
  - apply Forall_app. split; [done | apply IH].
  - constructor; [done | apply IH].
Qed.

Lemma afterFirst_None pat s : afterFirst pat s = None <-> includes pat s = false.
Proof.
  induction s as [|c s IH].
  - simpl. by destruct (startsWith pat []).
  - rewrite includes_cons. cbn [afterFirst].
    by destruct (startsWith pat (c :: s)).
Qed.

(** The lazy scan stops at the first occurrence: what it skips, extended by
    all but the last unit of the pattern, holds no occurrence. *)
Lemma afterFirst_Some pat s rest :
  pat <> [] ->
  afterFirst pat s = Some rest ->
  exists block, s = block ++ pat ++ rest /\
    includes pat (block ++ removelast pat) = false.
Proof.
  intros Hpat. induction s as [|c s IH].
  - simpl. destruct (startsWith pat []) eqn:Hs; [| done].
    apply startsWith_length in Hs. destruct pat; [done | simpl in Hs; lia].
  - cbn [afterFirst]. destruct (startsWith pat (c :: s)) eqn:Hs.
    + intros [= <-]. exists []. apply startsWith_true in Hs as [r Hr]. rewrite Hr at 1 2.
      rewrite drop_app_length. split; [done |].
      simpl. destruct (includes pat (removelast pat)) eqn:Hin; [| done].
      apply includes_length in Hin. exfalso.
      pose proof (f_equal length (app_removelast_last 0 Hpat)) as Hlen.
      rewrite length_app in Hlen. simpl in Hlen. lia.
    + intros H. destruct (IH H) as (block & -> & Hmin). exists (c :: block).
      split; [done |]. change ((c :: block) ++ removelast pat) with (c :: (block ++ removelast pat)).
      rewrite includes_cons, Hmin, orb_false_r.
      destruct (startsWith pat (c :: block ++ removelast pat)) eqn:Hx; [| done].
      apply (startsWith_extend _ _ ([List.last pat 0] ++ rest)) in Hx.
      rewrite <- Hs, <- Hx. f_equal. simpl. f_equal.
      transitivity (block ++ (removelast pat ++ [List.last pat 0]) ++ rest).
      * by rewrite <- !app_assoc.
      * by rewrite <- app_removelast_last.
Qed.

(** Induction along the scan of [replaceAll]: the text is empty, or starts
    with a match, or starts with a unit that is kept. *)
Lemma replaceAll_scan pat rep (P : jsstring -> jsstring -> Prop) :
  pat <> [] ->
  P [] [] ->
  (forall s out, P s out -> P (pat ++ s) (rep ++ out)) ->
  (forall c s out, startsWith pat (c :: s) = false -> P s out -> P (c :: s) (c :: out)) ->
  forall s, P s (replaceAll pat rep s).
Proof.
  intros Hpat Hnil Hmatch Hkeep s.
  induction (Nat.lt_wf_0_projected length s) as [s _ IH].
  destruct s as [|c s]; [done |].
  destruct (startsWith pat (c :: s)) eqn:Hs.
  - apply startsWith_true in Hs as [r Hr]. rewrite Hr, replaceAll_match by done.
    apply Hmatch, IH. rewrite Hr, length_app.
    destruct pat; [done | simpl; lia].
  - rewrite replaceAll_no_match_here by done. apply Hkeep; [done |].
    apply IH. simpl. lia.
Qed.

(** ** Content sanitizer *)

Lemma removeInvisible_visible s :
  Forall (fun c => isInvisible c = false) (removeInvisible s).
Proof.
  unfold removeInvisible. apply List.Forall_forall. intros c Hc.
  apply List.filter_In in Hc as [_ Hc]. by apply negb_true_iff.
Qed.

Lemma removeInvisible_id s :
  Forall (fun c => isInvisible c = false) s -> removeInvisible s = s.
Proof.
  unfold removeInvisible. induction 1 as [|c s Hc _ IH]; [done |].
  simpl. rewrite Hc. simpl. by f_equal.
Qed.

Lemma removeFrontMatter_suffix s : removeFrontMatter s `suffix_of` s.
Proof.
  unfold removeFrontMatter. destruct (startsWith (js "---") s); [| done].
  destruct (afterFirst (js "---") (drop 3 s)) as [rest|] eqn:Hrest; [| done].
  apply afterFirst_Some in Hrest as (block & Hs & _); [| done].
  exists (take 3 s ++ block ++ js "---").
  rewrite <- (take_drop 3 s) at 1. rewrite Hs. by rewrite <- !app_assoc.
Qed.

Lemma removeFrontMatter_absent s : hasFrontMatter s = false -> removeFrontMatter s = s.
Proof.
  unfold hasFrontMatter, removeFrontMatter.
  destruct (startsWith (js "---") s); [| done]. simpl.
  intros Hnone. apply afterFirst_None in Hnone. by rewrite Hnone.
Qed.

(** What the front-matter pattern matches: the opening hyphens, the
    shortest block that three hyphens follow, and these three hyphens. *)
Lemma removeFrontMatter_present s :
  hasFrontMatter s = true ->
  exists block, s = js "---" ++ block ++ js "---" ++ removeFrontMatter s /\
    includes (js "---") (block ++ js "--") = false.
Proof.
  unfold hasFrontMatter, removeFrontMatter. rewrite andb_true_iff.
  intros [Hopen Hclose]. rewrite Hopen.
  destruct (afterFirst (js "---") (drop 3 s)) as [rest|] eqn:Hrest.
  - apply afterFirst_Some in Hrest as (block & Hs & Hmin); [| done].
    exists block. split; [| done].
    apply startsWith_true in Hopen as [r ->].
    change (drop 3 (js "---" ++ r)) with r in Hs. by rewrite Hs.
  - apply afterFirst_None in Hrest. congruence.
Qed.

Lemma cleanMarkdownContent_visible x :
  Forall (fun c => isInvisible c = false) (cleanMarkdownContent x).
Proof.
  unfold cleanMarkdownContent.
  destruct (removeFrontMatter_suffix (escapeAmpersands (removeInvisible x))) as [k Hk].
  assert (Forall (fun c => isInvisible c = false) (escapeAmpersands (removeInvisible x))) as Hall.
  { apply replaceAllFrom_Forall; [by repeat constructor | apply removeInvisible_visible]. }
  rewrite Hk in Hall. by apply Forall_app in Hall as [_ ?].
Qed.

Lemma otherUnits_app s r : otherUnits (s ++ r) = (otherUnits s + otherUnits r)%nat.
Proof. unfold otherUnits. by rewrite List.filter_app, length_app. Qed.

Lemma escapeAmpersands_otherUnits s : otherUnits (escapeAmpersands s) = otherUnits s.
Proof.
  unfold escapeAmpersands.
  apply (replaceAll_scan (js " & ") (js " &amp; ")
           (fun s out => otherUnits out = otherUnits s)); [done | done | |].
  - intros r out IH. rewrite !otherUnits_app, IH. done.
  - intros c r out _ IH. change (c :: out) with ([c] ++ out).
    change (c :: r) with ([c] ++ r). by rewrite !otherUnits_app, IH.
Qed.

Lemma escapeAmpersands_length s :
  (length s <= length (escapeAmpersands s))%nat /\
  (includes (js " & ") s = true -> (length s < length (escapeAmpersands s))%nat).
Proof.
  unfold escapeAmpersands.
  apply (replaceAll_scan (js " & ") (js " &amp; ")
           (fun s out => (length s <= length out)%nat /\
              (includes (js " & ") s = true -> (length s < length out)%nat))); [done | done | |].
  - intros r out [IH _]. rewrite !length_app. simpl. lia.
  - intros c r out Hc [IH1 IH2]. simpl length. split; [lia |].
    rewrite includes_cons, Hc. simpl. intros H. apply IH2 in H. lia.
Qed.

(** On a text that is already clean the sanitizer does nothing. *)
Lemma cleanMarkdownContent_settled y :
  Forall (fun c => isInvisible c = false) y ->
  includes (js " & ") y = false ->
  hasFrontMatter y = false ->
  cleanMarkdownContent y = y.
Proof.
  intros Hvisible Hamp Hfront. unfold cleanMarkdownContent, escapeAmpersands.
  rewrite removeInvisible_id by done. rewrite replaceAll_no_match by done.
  by apply removeFrontMatter_absent.
Qed.

(** On a text that holds a space-delimited ampersand, or starts with a
    hyphen-delimited block, the sanitizer changes something. *)
Lemma cleanMarkdownContent_unsettled y :
  Forall (fun c => isInvisible c = false) y ->
  includes (js " & ") y = true \/ hasFrontMatter y = true ->
  cleanMarkdownContent y <> y.
Proof.
  intros Hvisible Hy Hfix. unfold cleanMarkdownContent in Hfix.
  rewrite removeInvisible_id in Hfix by done.
  destruct (hasFrontMatter (escapeAmpersands y)) eqn:Hfront.
  - apply removeFrontMatter_present in Hfront as (block & Hsplit & _).
    rewrite Hfix in Hsplit. apply (f_equal otherUnits) in Hsplit.
    rewrite escapeAmpersands_otherUnits, !otherUnits_app in Hsplit.
    change (otherUnits (js "---")) with 3%nat in Hsplit. lia.
  - rewrite removeFrontMatter_absent in Hfix by done.
    destruct Hy as [Hamp|Hfront'].
    + apply escapeAmpersands_length in Hamp. rewrite Hfix in Hamp. lia.
    + destruct (includes (js " & ") y) eqn:Hamp.
      * apply escapeAmpersands_length in Hamp. rewrite Hfix in Hamp. lia.
      * unfold escapeAmpersands in Hfront. rewrite replaceAll_no_match in Hfront by done.
        congruence.
Qed.

(** C2, as the specification states it, fails: on the text of two
    ampersands that share a space, the first pass escapes the first one only
    (the matches of one pass do not overlap), and the second pass escapes
    the other. *)
Lemma cleanMarkdownContent_not_idempotent :
  cleanMarkdownContent (cleanMarkdownContent (js " & & ")) <>
  cleanMarkdownContent (js " & & ").
Proof. vm_compute. discriminate. Qed.

(** A second way to lose idempotence: a run of twelve hyphens loses a block
    of six in each of the first two passes. *)
Example cleanMarkdownContent_hyphens :
  cleanMarkdownContent (js "------------") = js "------" /\
  cleanMarkdownContent (js "------") = [].
Proof. by vm_compute. Qed.

(** C2, amended: sanitizing a second time changes nothing exactly when the
    sanitized text holds no ampersand between two spaces and does not start
    with three hyphens that three more hyphens follow. *)
Theorem cleanMarkdownContent_idempotent_iff (x : jsstring) :
  cleanMarkdownContent (cleanMarkdownContent x) = cleanMarkdownContent x <->
  includes (js " & ") (cleanMarkdownContent x) = false /\
  hasFrontMatter (cleanMarkdownContent x) = false.
Proof.
  pose proof (cleanMarkdownContent_visible x) as Hvisible. split.
  - intros Hfix.
    destruct (includes (js " & ") (cleanMarkdownContent x)) eqn:Hamp.
    { by destruct (cleanMarkdownContent_unsettled _ Hvisible (or_introl Hamp)). }
    destruct (hasFrontMatter (cleanMarkdownContent x)) eqn:Hfront; [| done].
    by destruct (cleanMarkdownContent_unsettled _ Hvisible (or_intror Hfront)).
  - intros [Hamp Hfront]. by apply cleanMarkdownContent_settled.
Qed.

Lemma cleanMarkdownContent_idempotent_iff_witness :
  cleanMarkdownContent (cleanMarkdownContent (js "Salt & pepper")) =
  cleanMarkdownContent (js "Salt & pepper").
Proof.
  apply (proj2 (cleanMarkdownContent_idempotent_iff (js "Salt & pepper"))).
  split; reflexivity.
Defined.

(** C3, as the specification states it, fails: the line feed behind the
    closing hyphens is no part of the match and stays. *)
Lemma cleanMarkdownContent_front_matter_not_Body :
  cleanMarkdownContent frontMatterExample <> js "Body".
Proof. vm_compute. discriminate. Qed.

(** The block needs no lines of its own: hyphens inside a line open and
    close it as well. *)
Example cleanMarkdownContent_inline_hyphens :
  cleanMarkdownContent (js "---a---b") = js "b".
Proof. reflexivity. Qed.

(** C3, amended: with [s] the text after the first two steps, the sanitizer
    removes a leading block exactly when [s] starts with three hyphens and
    holds three more behind them; it removes the opening hyphens, the
    shortest block that three hyphens follow and these hyphens, and nothing
    behind them; otherwise it returns [s].  On the example of the
    specification the result is a line feed followed by Body. *)
Theorem cleanMarkdownContent_front_matter (x : jsstring) :
  let s := escapeAmpersands (removeInvisible x) in
  (hasFrontMatter s = true ->
     exists block,
       s = js "---" ++ block ++ js "---" ++ cleanMarkdownContent x /\
       includes (js "---") (block ++ js "--") = false) /\
  (hasFrontMatter s = false -> cleanMarkdownContent x = s) /\
  cleanMarkdownContent frontMatterExample = newline ++ js "Body".
Proof.
  split; [| split].
  - apply removeFrontMatter_present.
  - apply removeFrontMatter_absent.
  - reflexivity.
Qed.

Lemma cleanMarkdownContent_front_matter_witness :
  exists block,
    frontMatterExample = js "---" ++ block ++ js "---" ++ cleanMarkdownContent frontMatterExample /\
    includes (js "---") (block ++ js "--") = false.
Proof.
  apply (proj1 (cleanMarkdownContent_front_matter frontMatterExample)).
  reflexivity.
Defined.

(** ** TOC renderer *)

Lemma fold_tocItemHtml toc start :
  fold_left (fun tocHtml entry => tocHtml ++ tocItemHtml entry) toc start =
    start ++ concat (tocItemHtml <$> toc).
Proof.
  revert start. induction toc as [|entry toc IH]; intros start.
  - cbn. by rewrite app_nil_r.
  - cbn [fold_left]. rewrite IH, fmap_cons. cbn [concat]. by rewrite <- app_assoc.
Qed.

Lemma generateTocHtml_eq toc title :
  generateTocHtml toc title =
    tocOpening (default (js "Table of Contents") title) ++
    concat (tocItemHtml <$> toc) ++ tocClosing.
Proof. unfold generateTocHtml. by rewrite fold_tocItemHtml, <- app_assoc. Qed.

Lemma tocItemHtml_eq entry :
  tocItemHtml entry =
    js "<li class=" ++ dquote ++
    (if bool_decide (3 < TocEntry.level entry)%nat then js "toc-indent" else []) ++
    dquote ++ js ">" ++
    (js "<a href=" ++ dquote ++ js "#" ++ TocEntry.anchor entry ++ dquote ++ js ">" ++
       TocEntry.text entry ++ js "</a>") ++
    js "</li>".
Proof.
  unfold tocItemHtml.
  replace (bool_decide (3 < TocEntry.level entry)%nat) with (3 <? TocEntry.level entry)%nat.
  - by rewrite <- !app_assoc.
  - destruct (Nat.ltb_spec 3 (TocEntry.level entry)).
    + by rewrite bool_decide_eq_true_2.
    + rewrite bool_decide_eq_false_2; [done | lia].
Qed.

(** C8: the fragment is the titled opening, one item for each entry in
    their order, and the closing with the page break; an item carries the
    class toc-indent when the level of its entry exceeds 3 and the empty
    class otherwise; without entries the fragment is the opening followed
    by the closing. *)
Theorem generateTocHtml_shape (toc : list TocEntry.t) (title : option jsstring) :
  let heading := default (js "Table of Contents") title in
  let opening :=
    newline ++ js "    <div class=" ++ dquote ++ js "toc" ++ dquote ++ js ">" ++
    newline ++ js "        <h1>" ++ heading ++ js "</h1>" ++
    newline ++ js "        <ul>" ++
    newline ++ js "    " in
  let closing :=
    js "</ul></div><div class=" ++ dquote ++ js "page-break" ++ dquote ++ js "></div>" in
  generateTocHtml toc title =
    opening ++
    concat ((fun entry =>
       js "<li class=" ++ dquote ++
       (if bool_decide (3 < TocEntry.level entry)%nat then js "toc-indent" else []) ++
       dquote ++ js ">" ++
       (js "<a href=" ++ dquote ++ js "#" ++ TocEntry.anchor entry ++ dquote ++ js ">" ++
          TocEntry.text entry ++ js "</a>") ++
       js "</li>") <$> toc) ++
    closing /\
  generateTocHtml [] title = opening ++ closing.
Proof.
  intros heading opening closing. split; [| reflexivity].
  rewrite generateTocHtml_eq. fold heading. do 3 f_equal.
  apply list_fmap_ext. intros _ entry _. apply tocItemHtml_eq.
Qed.

(** ** Heading indexer *)

Section HeadingIndexer.
Context `{UnicodeData}.

(** The loop of the indexer, read as a whole: the entries are those of the
    tokens, in their order, and every token is reindexed on its place. *)
Lemma visitToken_eq tocFilter maxDepth toc seen token :
  visitToken tocFilter maxDepth (toc, seen) token =
    (toc ++ entriesOf tocFilter maxDepth token, seen ++ [reindexed maxDepth token]).
Proof.
  unfold visitToken, entriesOf, reindexed, indexed, tocEntryOf, anchoredToken.
  destruct (isHeading token && (Token.depth token <=? maxDepth)%nat);
    [destruct (test tocFilter _) |]; rewrite ?app_nil_r; reflexivity.
Qed.

Lemma fold_visitToken tocFilter maxDepth tokens toc seen :
  fold_left (visitToken tocFilter maxDepth) tokens (toc, seen) =
    (toc ++ (tokens ≫= entriesOf tocFilter maxDepth),
     seen ++ (reindexed maxDepth <$> tokens)).
Proof.
  revert toc seen. induction tokens as [|token tokens IH]; intros toc seen.
  - cbn. by rewrite !app_nil_r.
  - cbn [fold_left]. rewrite visitToken_eq, IH, fmap_cons, bind_cons.
    by rewrite <- !app_assoc.
Qed.

Lemma extractHeadings_eq tokens options :
  extractHeadings tokens options =
    (tokens ≫= entriesOf (default defaultTocFilter (tocFilter options))
                 (default 4%nat (maxDepth options)),
     reindexed (default 4%nat (maxDepth options)) <$> tokens).
Proof. unfold extractHeadings. by rewrite fold_visitToken. Qed.

Lemma extractHeadings_app before after options :
  extractHeadings (before ++ after) options =
    ((extractHeadings before options).1 ++ (extractHeadings after options).1,
     (extractHeadings before options).2 ++ (extractHeadings after options).2).
Proof. rewrite !extractHeadings_eq. simpl. by rewrite bind_app, fmap_app. Qed.

Lemma extractHeadings_cons token tokens options :
  extractHeadings (token :: tokens) options =
    ((extractHeadings [token] options).1 ++ (extractHeadings tokens options).1,
     (extractHeadings [token] options).2 ++ (extractHeadings tokens options).2).
Proof. apply (extractHeadings_app [token]). Qed.

Lemma extractHeadings_middle before token after options :
  extractHeadings (before ++ token :: after) options =
    ((extractHeadings before options).1 ++ (extractHeadings [token] options).1 ++
       (extractHeadings after options).1,
     (extractHeadings before options).2 ++ (extractHeadings [token] options).2 ++
       (extractHeadings after options).2).
Proof. by rewrite extractHeadings_app, extractHeadings_cons. Qed.

Lemma isHeading_true token : isHeading token = true <-> Token.type token = js "heading".
Proof. unfold isHeading. by rewrite bool_decide_eq_true. Qed.

Lemma indexed_true maxDepth token :
  indexed maxDepth token = true <->
  Token.type token = js "heading" /\ (Token.depth token <= maxDepth)%nat.
Proof. unfold indexed. by rewrite andb_true_iff, isHeading_true, Nat.leb_le. Qed.

Lemma indexed_false maxDepth token :
  indexed maxDepth token = false <->
  Token.type token <> js "heading" \/ (maxDepth < Token.depth token)%nat.
Proof.
  unfold indexed, isHeading.
  rewrite andb_false_iff, bool_decide_eq_false, Nat.leb_gt. done.
Qed.

(** C4: every heading of depth at most [maxDepth] becomes the anchored
    markup block, whatever the filter says of its cleaned text: the array
    the call leaves does not depend on the filter.  The filter decides only
    which of these headings give an entry, and the entries come in the order
    of the headings. *)
Theorem extractHeadings_anchors_every_heading (tokens : list Token.t)
    (options : ExtractOptions) :
  let filter := default defaultTocFilter (tocFilter options) in
  let maxDepth := default 4%nat (maxDepth options) in
  extractHeadings tokens options =
    (tokens ≫= (fun token =>
       if indexed maxDepth token && test filter (cleanText (Token.text token))
       then [ {| TocEntry.anchor := anchor (cleanText (Token.text token));
                 TocEntry.level := Token.depth token;
                 TocEntry.text := cleanText (Token.text token) |} ]
       else []),
     (fun token =>
        if indexed maxDepth token
        then {| Token.type := js "html";
                Token.depth := Token.depth token;
                Token.text :=
                  js "<h" ++ numberToString (Token.depth token) ++ js " id=" ++ dquote ++
                  anchor (cleanText (Token.text token)) ++ dquote ++ js ">" ++
                  cleanText (Token.text token) ++
                  js "</h" ++ numberToString (Token.depth token) ++ js ">";
                Token.raw := Token.raw token |}
        else token) <$> tokens).
Proof.
  intros filter maxDepth. unfold extractHeadings. fold filter maxDepth.
  rewrite fold_visitToken. reflexivity.
Qed.

(** C5: under the options of the orchestrator, which leave [maxDepth] at
    its default 4, a heading of depth 5 stays as it is and gives no entry,
    and a heading of depth 4 becomes the anchored block and gives an entry
    exactly when the filter matches its cleaned text. *)
Theorem extractHeadings_depth_boundary (tocFilterRegex : RegExp)
    (before after : list Token.t) (token : Token.t) :
  Token.type token = js "heading" ->
  let options := orchestratorOptions tocFilterRegex in
  let tocBefore := (extractHeadings before options).1 in
  let tocAfter := (extractHeadings after options).1 in
  let tokensBefore := (extractHeadings before options).2 in
  let tokensAfter := (extractHeadings after options).2 in
  (Token.depth token = 5%nat ->
     extractHeadings (before ++ token :: after) options =
       (tocBefore ++ tocAfter, tokensBefore ++ token :: tokensAfter)) /\
  (Token.depth token = 4%nat ->
     extractHeadings (before ++ token :: after) options =
       (tocBefore ++
          (if test tocFilterRegex (cleanText (Token.text token))
           then [ {| TocEntry.anchor := anchor (cleanText (Token.text token));
                     TocEntry.level := 4;
                     TocEntry.text := cleanText (Token.text token) |} ]
           else []) ++ tocAfter,
        tokensBefore ++
          {| Token.type := js "html";
             Token.depth := 4;
             Token.text :=
               js "<h4 id=" ++ dquote ++ anchor (cleanText (Token.text token)) ++ dquote ++
               js ">" ++ cleanText (Token.text token) ++ js "</h4>";
             Token.raw := Token.raw token |} :: tokensAfter)).
Proof.
  intros Hheading options tocBefore tocAfter tokensBefore tokensAfter.
  rewrite extractHeadings_middle.
  fold tocBefore tocAfter tokensBefore tokensAfter.
  rewrite (extractHeadings_eq [token]). simpl.
  unfold entriesOf, reindexed, indexed. rewrite (proj2 (isHeading_true token) Hheading).
  split; intros Hdepth; rewrite Hdepth; simpl; [done |].
  unfold tocEntryOf, anchoredToken. rewrite Hdepth.
  by destruct (test tocFilterRegex _).
Qed.

(** C6: the indexer keeps the number of tokens, and a token that is no
    heading, or a heading deeper than [maxDepth], is found unchanged on its
    place. *)
Theorem extractHeadings_frame (tokens : list Token.t) (options : ExtractOptions) :
  let maxDepth := default 4%nat (maxDepth options) in
  let tokens' := (extractHeadings tokens options).2 in
  length tokens' = length tokens /\
  forall (i : nat) (token : Token.t),
    tokens !! i = Some token ->
    Token.type token <> js "heading" \/ (maxDepth < Token.depth token)%nat ->
    tokens' !! i = Some token.
Proof.
  intros maxDepth tokens'. subst tokens'. rewrite extractHeadings_eq. simpl. split.
  - apply length_fmap.
  - intros i token Hi Hskip. rewrite list_lookup_fmap, Hi. simpl.
    fold maxDepth. unfold reindexed. by rewrite (proj2 (indexed_false _ _) Hskip).
Qed.

(** Removing the double asterisks and then the single ones removes every
    asterisk and nothing else. *)
Lemma replaceAll_unit_filter c s :
  replaceAll [c] [] s = List.filter (fun d => negb (d =? c)) s.
Proof.
  apply (replaceAll_scan [c] [] (fun s out => out = List.filter (fun d => negb (d =? c)) s));
    [done | done | |].
  - intros r out ->. simpl. by rewrite N.eqb_refl.
  - intros d r out Hd ->. simpl in Hd. rewrite andb_true_r in Hd.
    simpl. rewrite (N.eqb_sym d c), Hd. done.
Qed.

Lemma cleanText_eq text :
  cleanText text = trim (List.filter (fun c => negb (c =? 42)) text).
Proof.
  unfold cleanText. f_equal. change (js "*") with [42]. rewrite replaceAll_unit_filter.
  apply (replaceAll_scan (js "**") []
           (fun s out => List.filter (fun c => negb (c =? 42)) out =
                         List.filter (fun c => negb (c =? 42)) s)); [done | done | |].
  - intros r out IH. done.
  - intros c r out _ IH. simpl. by rewrite IH.
Qed.

Lemma dropWhile_all f s : Forall (fun c => f c = true) s -> dropWhile f s = [].
Proof. induction 1 as [|c s Hc _ IH]; simpl; [done | by rewrite Hc]. Qed.

Lemma trim_whitespace s : Forall (fun c => isWhiteSpace c = true) s -> trim s = [].
Proof. intros Hs. unfold trim, trimStart. by rewrite dropWhile_all. Qed.

Lemma cleanText_blank text :
  Forall (fun c => c = 42 \/ isWhiteSpace c = true) text -> cleanText text = [].
Proof.
  intros Htext. rewrite cleanText_eq. apply trim_whitespace.
  apply List.Forall_forall. intros c Hc. apply List.filter_In in Hc as [Hc Hstar].
  rewrite List.Forall_forall in Htext. destruct (Htext c Hc) as [->|Hws]; done.
Qed.

(** The anchor is made of word units and single hyphens. *)
Lemma replaceNonWordRunsFrom_units inRun s :
  Forall (fun c => isWordChar c = true \/ c = 45) (replaceNonWordRunsFrom inRun s).
Proof.
  revert inRun. induction s as [|c s IH]; intros inRun; simpl; [done |].
  destruct (isWordChar c) eqn:Hc.
  - constructor; [by left | apply IH].
  - destruct inRun; [apply IH |]. constructor; [by right | apply IH].
Qed.

Lemma anchor_units text : Forall (fun c => isWordChar c = true \/ c = 45) (anchor text).
Proof. apply replaceNonWordRunsFrom_units. Qed.

(** An element of a flattened list of lists of at most one element comes
    from one place, and the elements before it from the places before. *)
Lemma bind_lookup_single {A B : Type} (g : A -> list B) (l : list A) (k : nat) (e : B) :
  (forall x, (length (g x) <= 1)%nat) ->
  (l ≫= g) !! k = Some e ->
  exists i x, l !! i = Some x /\ g x = [e] /\ take i l ≫= g = take k (l ≫= g).
Proof.
  intros Hsingle. revert k. induction l as [|x l IH]; intros k; [done |].
  rewrite bind_cons. pose proof (Hsingle x) as Hx.
  destruct (g x) as [|e0 [|e1 rest]] eqn:Hgx; [| | simpl in Hx; lia].
  - intros Hk. destruct (IH k Hk) as (i & y & Hi & Hy & Htake).
    exists (S i), y. repeat split; try done.
    cbn [take]. by rewrite bind_cons, Hgx.
  - destruct k as [|k].
    + intros [= <-]. by exists O, x.
    + intros Hk. destruct (IH k Hk) as (i & y & Hi & Hy & Htake).
      exists (S i), y. repeat split; try done.
      cbn [take]. rewrite bind_cons, Hgx. cbn [app take]. by f_equal.
Qed.

Lemma entriesOf_single tocFilter maxDepth token :
  (length (entriesOf tocFilter maxDepth token) <= 1)%nat.
Proof. unfold entriesOf. destruct (_ && _); simpl; lia. Qed.

Lemma entriesOf_entry tocFilter maxDepth token entry :
  entriesOf tocFilter maxDepth token = [entry] ->
  indexed maxDepth token = true /\ entry = tocEntryOf token.
Proof.
  unfold entriesOf. destruct (indexed maxDepth token); [| done].
  destruct (test tocFilter _); [| done]. by intros [= <-].
Qed.

(** C7: the heading text of the example gives the cleaned text and the
    anchor of the specification, and the indexer puts them into the block
    and the entry.  In general the cleaned text is the text without its
    asterisks, trimmed, and the anchor holds word units and hyphens only. *)
Theorem extractHeadings_emphasis_example (depth ceiling : nat) (raw : jsstring)
    (tocFilterRegex : RegExp) :
  (depth <= ceiling)%nat ->
  cleanText (js "**Q.1) Self-awareness**") = js "Q.1) Self-awareness" /\
  anchor (js "Q.1) Self-awareness") = js "q-1-self-awareness" /\
  extractHeadings
    [ {| Token.type := js "heading"; Token.depth := depth;
         Token.text := js "**Q.1) Self-awareness**"; Token.raw := raw |} ]
    {| tocFilter := Some tocFilterRegex; maxDepth := Some ceiling |} =
    ((if test tocFilterRegex (js "Q.1) Self-awareness")
      then [ {| TocEntry.anchor := js "q-1-self-awareness";
                TocEntry.level := depth;
                TocEntry.text := js "Q.1) Self-awareness" |} ]
      else []),
     [ {| Token.type := js "html"; Token.depth := depth;
          Token.text :=
            js "<h" ++ numberToString depth ++ js " id=" ++ dquote ++
            js "q-1-self-awareness" ++ dquote ++ js ">" ++ js "Q.1) Self-awareness" ++
            js "</h" ++ numberToString depth ++ js ">";
          Token.raw := raw |} ]) /\
  (forall text,
     cleanText text = trim (List.filter (fun c => negb (c =? 42)) text)) /\
  (forall text, Forall (fun c => isWordChar c = true \/ c = 45) (anchor text)).
Proof.
  intros Hdepth.
  assert (cleanText (js "**Q.1) Self-awareness**") = js "Q.1) Self-awareness") as Hclean
    by reflexivity.
  assert (anchor (js "Q.1) Self-awareness") = js "q-1-self-awareness") as Hanchor
    by reflexivity.
  split; [done |]. split; [done |].
  split; [| split; [apply cleanText_eq | apply anchor_units]].
  rewrite extractHeadings_eq.
  cbn [default from_option id tocFilter maxDepth mbind list_bind fmap list_fmap].
  unfold entriesOf, reindexed, indexed, tocEntryOf, anchoredToken, headingHtml.
  cbn [Token.type Token.depth Token.text Token.raw].
  rewrite Hclean, Hanchor, (proj2 (Nat.leb_le _ _) Hdepth), app_nil_r.
  change (isHeading _) with true. cbn [andb].
  by destruct (test tocFilterRegex _).
Qed.

(** C9: an entry of the result comes from a heading of the array; on the
    place of this heading the call leaves the block whose id attribute is
    the anchor of the entry and whose content is its text; the renderer
    writes, for the entry, the link to this anchor with this text; and the
    anchor holds word units and hyphens only, so no unit of it ends the
    attribute. *)
Theorem toc_links_resolve (tokens : list Token.t) (options : ExtractOptions)
    (title : option jsstring) :
  let toc := (extractHeadings tokens options).1 in
  let tokens' := (extractHeadings tokens options).2 in
  forall (k : nat) (entry : TocEntry.t),
    toc !! k = Some entry ->
    (exists (i : nat) (token : Token.t),
       tokens !! i = Some token /\
       Token.type token = js "heading" /\
       (extractHeadings (take i tokens) options).1 = take k toc /\
       TocEntry.level entry = Token.depth token /\
       tokens' !! i =
         Some {| Token.type := js "html";
                 Token.depth := Token.depth token;
                 Token.text :=
                   js "<h" ++ numberToString (TocEntry.level entry) ++
                   js " id=" ++ dquote ++ TocEntry.anchor entry ++ dquote ++ js ">" ++
                   TocEntry.text entry ++
                   js "</h" ++ numberToString (TocEntry.level entry) ++ js ">";
                 Token.raw := Token.raw token |}) /\
    generateTocHtml toc title =
      tocOpening (default (js "Table of Contents") title) ++
      concat (tocItemHtml <$> take k toc) ++
      (js "<li class=" ++ dquote ++
         (if bool_decide (3 < TocEntry.level entry)%nat then js "toc-indent" else []) ++
         dquote ++ js ">" ++
         (js "<a href=" ++ dquote ++ js "#" ++ TocEntry.anchor entry ++ dquote ++ js ">" ++
            TocEntry.text entry ++ js "</a>") ++
         js "</li>") ++
      concat (tocItemHtml <$> drop (S k) toc) ++
      tocClosing /\
    Forall (fun c => isWordChar c = true \/ c = 45) (TocEntry.anchor entry).
Proof.
  intros toc tokens' k entry Hk. subst toc tokens'.
  rewrite extractHeadings_eq in *. cbn [fst snd] in *.
  set (filter := default defaultTocFilter (tocFilter options)) in *.
  set (ceiling := default 4%nat (maxDepth options)) in *.
  split; [| split].
  - destruct (bind_lookup_single _ _ _ _ (entriesOf_single filter ceiling) Hk)
      as (i & token & Hi & Hentry & Htake).
    apply entriesOf_entry in Hentry as [Hindexed ->].
    exists i, token. split; [done |].
    split; [by apply indexed_true in Hindexed as [? _] |].
    split; [by rewrite extractHeadings_eq |]. split; [done |].
    rewrite list_lookup_fmap, Hi. cbn [fmap option_fmap option_map].
    unfold reindexed. by rewrite Hindexed.
  - rewrite generateTocHtml_eq. f_equal.
    rewrite <- (take_drop_middle _ _ _ Hk) at 1.
    rewrite fmap_app, fmap_cons, concat_app. cbn [concat].
    by rewrite tocItemHtml_eq, <- !app_assoc.
  - destruct (bind_lookup_single _ _ _ _ (entriesOf_single filter ceiling) Hk)
      as (_ & token & _ & Hentry & _).
    apply entriesOf_entry in Hentry as [_ ->]. apply anchor_units.
Qed.

(** C10: a heading of depth at most [maxDepth] whose text holds asterisks
    and white space only has the empty cleaned text and the empty anchor; it
    is handled like every other heading: the block with the empty id takes
    its place, and it gives an entry with the empty anchor exactly when the
    filter matches the empty text. *)
Theorem extractHeadings_empty_anchor (before after : list Token.t) (token : Token.t)
    (options : ExtractOptions) :
  Token.type token = js "heading" ->
  (Token.depth token <= default 4%nat (maxDepth options))%nat ->
  Forall (fun c => c = 42 \/ isWhiteSpace c = true) (Token.text token) ->
  cleanText (Token.text token) = [] /\
  anchor (cleanText (Token.text token)) = [] /\
  extractHeadings (before ++ token :: after) options =
    ((extractHeadings before options).1 ++
       (if test (default defaultTocFilter (tocFilter options)) []
        then [ {| TocEntry.anchor := []; TocEntry.level := Token.depth token;
                  TocEntry.text := [] |} ]
        else []) ++
       (extractHeadings after options).1,
     (extractHeadings before options).2 ++
       {| Token.type := js "html";
          Token.depth := Token.depth token;
          Token.text :=
            js "<h" ++ numberToString (Token.depth token) ++ js " id=" ++ dquote ++ dquote ++
            js "></h" ++ numberToString (Token.depth token) ++ js ">";
          Token.raw := Token.raw token |} :: (extractHeadings after options).2).
Proof.
  intros Hheading Hdepth Htext.
  pose proof (cleanText_blank _ Htext) as Hclean.
  split; [done |]. split; [by rewrite Hclean |].
  rewrite extractHeadings_middle, (extractHeadings_eq [token]).
  cbn [fst snd mbind list_bind fmap list_fmap]. rewrite app_nil_r.
  unfold entriesOf, reindexed, tocEntryOf, anchoredToken, headingHtml.
  rewrite (proj2 (indexed_true _ _) (conj Hheading Hdepth)), Hclean. cbn [andb].
  change (anchor []) with (@nil N). cbn [app].
  by destruct (test _ []).
Qed.

End HeadingIndexer.

(** ** Conversion orchestrator *)

Section Orchestrator.
Context `{UnicodeData}.

(** An exception that leaves [convertMdToPdf] comes from a call in front of
    the [try] block. *)
Lemma convertMdToPdf_thrown w inputFile outputFile options error :
  convertMdToPdf w inputFile outputFile options = Thrown error ->
  marked_setOptions w = Thrown error \/
  fs_readFileSync w (path_resolve w inputFile) = Thrown error \/
  (exists text, marked_lexer w text = Thrown error) \/
  (exists source flags, RegExp_new w source flags = Thrown error) \/
  (exists tokens, marked_parser w tokens = Thrown error).
Proof.
  unfold convertMdToPdf, configureMarked.
  destruct (negb (fs_existsSync w (path_resolve w inputFile))); [done |].
  destruct (resolveChromePath w _) as [chromePath|]; [| done].
  destruct (marked_setOptions w) as [[]|e0] eqn:Hset; cbn [mbind outcome_bind];
    [| intros [= ->]; by left].
  destruct (fs_readFileSync w _) as [rawContent|e1] eqn:Hread; cbn [mbind outcome_bind];
    [| intros [= ->]; right; by left].
  destruct (marked_lexer w _) as [tokens|e2] eqn:Hlex; cbn [mbind outcome_bind];
    [| intros [= ->]; right; right; left; eauto].
  destruct (RegExp_new w _ _) as [re|e3] eqn:Hre; cbn [mbind outcome_bind];
    [| intros [= ->]; right; right; right; left; eauto].
  destruct (extractHeadings tokens _) as [toc tokens'].
  destruct (marked_parser w tokens') as [bodyContent|e4] eqn:Hparse; cbn [mbind outcome_bind];
    [| intros [= ->]; right; right; right; right; eauto].
  by destruct (printPdf w _ _ _).
Qed.

(** When the calls in front of the [try] block return, the result is
    decided by the PDF generation. *)
Lemma convertMdToPdf_prepared w inputFile outputFile options
    chromePath rawContent tokens tocFilterRegex bodyContent :
  fs_existsSync w (path_resolve w inputFile) = true ->
  resolveChromePath w (ConversionOptions.chromePath options) = Some chromePath ->
  marked_setOptions w = Returned tt ->
  fs_readFileSync w (path_resolve w inputFile) = Returned rawContent ->
  marked_lexer w (cleanMarkdownContent rawContent) = Returned tokens ->
  RegExp_new w (default (js "Topic|Summary|Section|Detailed")
                  (ConversionOptions.tocFilter options)) (js "i") =
    Returned tocFilterRegex ->
  marked_parser w (extractHeadings tokens (orchestratorOptions tocFilterRegex)).2 =
    Returned bodyContent ->
  convertMdToPdf w inputFile outputFile options =
    match printPdf w chromePath
            (fullHtmlOf w options
               (extractHeadings tokens (orchestratorOptions tocFilterRegex)).1 bodyContent)
            (pdfOptionsOf w outputFile options) with
    | Returned _ =>
        Returned {| success := true;
                    message := js "PDF generated successfully: " ++ dquote ++ outputFile ++ dquote;
                    outputPath := Some (path_resolve w outputFile) |}
    | Thrown error =>
        Returned {| success := false;
                    message := js "PDF generation failed: " ++ error;
                    outputPath := None |}
    end.
Proof.
  intros Hexists Hchrome Hset Hread Hlex Hre Hparse.
  unfold convertMdToPdf, configureMarked.
  rewrite Hexists, Hchrome, Hset. cbn [negb mbind outcome_bind].
  rewrite Hread. cbn [mbind outcome_bind]. rewrite Hlex. cbn [mbind outcome_bind].
  rewrite Hre. cbn [mbind outcome_bind].
  unfold orchestratorOptions in *.
  destruct (extractHeadings tokens _) as [toc tokens']. cbn [fst snd] in *.
  rewrite Hparse. cbn [mbind outcome_bind].
  unfold fullHtmlOf, pdfOptionsOf. by destruct (printPdf w _ _ _).
Qed.

(** An exception of a call in front of the [try] block leaves the
    function. *)
Lemma convertMdToPdf_propagates w inputFile outputFile options chromePath error :
  fs_existsSync w (path_resolve w inputFile) = true ->
  resolveChromePath w (ConversionOptions.chromePath options) = Some chromePath ->
  marked_setOptions w = Returned tt ->
  (fs_readFileSync w (path_resolve w inputFile) = Thrown error \/
   exists rawContent,
     fs_readFileSync w (path_resolve w inputFile) = Returned rawContent /\
     (marked_lexer w (cleanMarkdownContent rawContent) = Thrown error \/
      exists tokens,
        marked_lexer w (cleanMarkdownContent rawContent) = Returned tokens /\
        (RegExp_new w (default (js "Topic|Summary|Section|Detailed")
                         (ConversionOptions.tocFilter options)) (js "i") = Thrown error \/
         exists tocFilterRegex,
           RegExp_new w (default (js "Topic|Summary|Section|Detailed")
                           (ConversionOptions.tocFilter options)) (js "i") =
             Returned tocFilterRegex /\
           marked_parser w (extractHeadings tokens (orchestratorOptions tocFilterRegex)).2 =
             Thrown error))) ->
  convertMdToPdf w inputFile outputFile options = Thrown error.
Proof.
  intros Hexists Hchrome Hset Hcalls.
  unfold convertMdToPdf, configureMarked.
  rewrite Hexists, Hchrome, Hset. cbn [negb mbind outcome_bind].
  destruct Hcalls as [Hread|(rawContent & Hread & Hcalls)];
    rewrite Hread; cbn [mbind outcome_bind]; [done |].
  destruct Hcalls as [Hlex|(tokens & Hlex & Hcalls)];
    rewrite Hlex; cbn [mbind outcome_bind]; [done |].
  destruct Hcalls as [Hre|(tocFilterRegex & Hre & Hparse)];
    rewrite Hre; cbn [mbind outcome_bind]; [done |].
  unfold orchestratorOptions in Hparse.
  destruct (extractHeadings tokens _) as [toc tokens']. cbn [snd] in Hparse.
  by rewrite Hparse.
Qed.

(** How far the [try] block of the code reaches: an exception of the PDF
    generation (launching the browser, opening the page, loading the
    document, printing, closing) is caught, and the result is the failure
    whose message is the text PDF generation failed, a colon and a space,
    followed by the message of the exception.  An exception of a call in
    front of the [try] block (reading the file, tokenizing, building the
    filter pattern, rendering the body) is not caught and leaves the
    function, against the rule of the developer guide to return objects and
    not to throw; every exception that leaves the function is one of these
    or one of configuring the parser. *)
Theorem convertMdToPdf_catches_pdf_generation (w : World) (inputFile outputFile : jsstring)
    (options : ConversionOptions.t) :
  let inputPath := path_resolve w inputFile in
  let tocFilter :=
    default (js "Topic|Summary|Section|Detailed") (ConversionOptions.tocFilter options) in
  (forall chromePath rawContent tokens tocFilterRegex bodyContent error,
     fs_existsSync w inputPath = true ->
     resolveChromePath w (ConversionOptions.chromePath options) = Some chromePath ->
     marked_setOptions w = Returned tt ->
     fs_readFileSync w inputPath = Returned rawContent ->
     marked_lexer w (cleanMarkdownContent rawContent) = Returned tokens ->
     RegExp_new w tocFilter (js "i") = Returned tocFilterRegex ->
     marked_parser w (extractHeadings tokens (orchestratorOptions tocFilterRegex)).2 =
       Returned bodyContent ->
     printPdf w chromePath
       (fullHtmlOf w options
          (extractHeadings tokens (orchestratorOptions tocFilterRegex)).1 bodyContent)
       (pdfOptionsOf w outputFile options) = Thrown error ->
     convertMdToPdf w inputFile outputFile options =
       Returned {| success := false;
                   message := js "PDF generation failed: " ++ error;
                   outputPath := None |}) /\
  (forall chromePath error,
     fs_existsSync w inputPath = true ->
     resolveChromePath w (ConversionOptions.chromePath options) = Some chromePath ->
     marked_setOptions w = Returned tt ->
     (fs_readFileSync w inputPath = Thrown error \/
      exists rawContent,
        fs_readFileSync w inputPath = Returned rawContent /\
        (marked_lexer w (cleanMarkdownContent rawContent) = Thrown error \/
         exists tokens,
           marked_lexer w (cleanMarkdownContent rawContent) = Returned tokens /\
           (RegExp_new w tocFilter (js "i") = Thrown error \/
            exists tocFilterRegex,
              RegExp_new w tocFilter (js "i") = Returned tocFilterRegex /\
              marked_parser w
                (extractHeadings tokens (orchestratorOptions tocFilterRegex)).2 =
                Thrown error))) ->
     convertMdToPdf w inputFile outputFile options = Thrown error) /\
  (forall error,
     convertMdToPdf w inputFile outputFile options = Thrown error ->
     marked_setOptions w = Thrown error \/
     fs_readFileSync w inputPath = Thrown error \/
     (exists text, marked_lexer w text = Thrown error) \/
     (exists source flags, RegExp_new w source flags = Thrown error) \/
     (exists tokens, marked_parser w tokens = Thrown error)).
Proof.
  intros inputPath tocFilter. split; [| split].
  - intros chromePath rawContent tokens tocFilterRegex bodyContent error
      Hexists Hchrome Hset Hread Hlex Hre Hparse Hprint.
    rewrite (convertMdToPdf_prepared _ _ _ _ _ _ _ _ _
               Hexists Hchrome Hset Hread Hlex Hre Hparse).
    by rewrite Hprint.
  - intros chromePath error. apply convertMdToPdf_propagates.
  - apply convertMdToPdf_thrown.
Qed.

End Orchestrator.

(** ** The statements at sample data *)

(** C1 asks that every exception of the steps of the conversion is caught
    and returned as a failure with its message, as the developer guide does
    (return objects, do not throw) and as the code does for a missing
    input, a missing browser and a failed PDF generation.  The code breaks
    it: the pattern of the filter is compiled in front of the [try] block,
    so for the malformed pattern of a lone opening parenthesis the
    exception of the engine leaves [convertMdToPdf] instead of becoming a
    failure result. *)
Lemma convertMdToPdf_bad_filter_throws :
  @convertMdToPdf asciiUnicodeData (sampleWorld false) (js "notes.md") (js "notes.pdf")
    badFilterOptions =
  Thrown (js "Invalid regular expression: /(/i: Unterminated group").
Proof.
  (* the input exists, the browser is found, the parser is configured *)
  apply (@convertMdToPdf_propagates asciiUnicodeData _ _ _ _ (js "/usr/bin/chromium"));
    [reflexivity | reflexivity | reflexivity |].
  (* the file is read and tokenized; compiling the pattern throws *)
  right. exists sampleDocument. split; [reflexivity |].
  right. exists sampleTokens. split; [reflexivity |].
  left. reflexivity.
Qed.

Lemma convertMdToPdf_catches_pdf_generation_witness :
  @convertMdToPdf asciiUnicodeData (sampleWorld true) (js "notes.md") (js "notes.pdf")
    noOptions =
  Returned {| success := false;
              message := js "PDF generation failed: " ++
                         js "Failed to launch the browser process!";
              outputPath := None |}.
Proof.
  eapply (proj1 (@convertMdToPdf_catches_pdf_generation asciiUnicodeData
                   (sampleWorld true) (js "notes.md") (js "notes.pdf") noOptions));
    reflexivity.
Defined.

Lemma extractHeadings_depth_boundary_witness :
  @extractHeadings asciiUnicodeData sampleTokens (orchestratorOptions defaultTocFilter) =
    ([ {| TocEntry.anchor := js "topic-one"; TocEntry.level := 3;
          TocEntry.text := js "Topic One" |} ],
     [ {| Token.type := js "html"; Token.depth := 3;
          Token.text := js "<h3 id=" ++ dquote ++ js "topic-one" ++ dquote ++
                        js ">Topic One</h3>";
          Token.raw := [] |};
       paragraphToken (js "Some text.");
       headingToken 5 (js "Deep Heading");
       paragraphToken (js "More text.") ]).
Proof.
  exact (proj1 (@extractHeadings_depth_boundary asciiUnicodeData defaultTocFilter
                  [headingToken 3 (js "Topic One"); paragraphToken (js "Some text.")]
                  [paragraphToken (js "More text.")]
                  (headingToken 5 (js "Deep Heading")) eq_refl) eq_refl).
Defined.

Lemma extractHeadings_frame_witness :
  (@extractHeadings asciiUnicodeData sampleTokens (orchestratorOptions defaultTocFilter)).2
    !! 2%nat = Some (headingToken 5 (js "Deep Heading")).
Proof.
  apply (proj2 (@extractHeadings_frame asciiUnicodeData sampleTokens
                  (orchestratorOptions defaultTocFilter))).
  - reflexivity.
  - right. simpl. lia.
Defined.

Lemma extractHeadings_emphasis_example_witness :
  @extractHeadings asciiUnicodeData
    [ headingToken 3 (js "**Q.1) Self-awareness**") ]
    {| tocFilter := Some matchAll; maxDepth := Some 4%nat |} =
    ([ {| TocEntry.anchor := js "q-1-self-awareness"; TocEntry.level := 3;
          TocEntry.text := js "Q.1) Self-awareness" |} ],
     [ {| Token.type := js "html"; Token.depth := 3;
          Token.text := js "<h3 id=" ++ dquote ++ js "q-1-self-awareness" ++ dquote ++
                        js ">Q.1) Self-awareness</h3>";
          Token.raw := [] |} ]).
Proof.
  assert (3 <= 4)%nat as Hdepth by lia.
  exact (proj1 (proj2 (proj2
           (@extractHeadings_emphasis_example asciiUnicodeData 3 4 [] matchAll Hdepth)))).
Defined.

Lemma toc_links_resolve_witness :
  (@extractHeadings asciiUnicodeData sampleTokens (orchestratorOptions defaultTocFilter)).1
    !! 0%nat =
    Some {| TocEntry.anchor := js "topic-one"; TocEntry.level := 3;
            TocEntry.text := js "Topic One" |} /\
  Forall (fun c => isWordChar c = true \/ c = 45) (js "topic-one").
Proof.
  split; [reflexivity |].
  apply (@toc_links_resolve asciiUnicodeData sampleTokens
           (orchestratorOptions defaultTocFilter) None 0
           {| TocEntry.anchor := js "topic-one"; TocEntry.level := 3;
              TocEntry.text := js "Topic One" |}).
  reflexivity.
Defined.

Lemma extractHeadings_empty_anchor_witness :
  @extractHeadings asciiUnicodeData [ headingToken 2 (js "**") ]
    {| tocFilter := Some matchAll; maxDepth := None |} =
    ([ {| TocEntry.anchor := []; TocEntry.level := 2; TocEntry.text := [] |} ],
     [ {| Token.type := js "html"; Token.depth := 2;
          Token.text := js "<h2 id=" ++ dquote ++ dquote ++ js "></h2>";
          Token.raw := [] |} ]).
Proof.
  apply (@extractHeadings_empty_anchor asciiUnicodeData [] [] (headingToken 2 (js "**"))
           {| tocFilter := Some matchAll; maxDepth := None |}).
  - reflexivity.
  - simpl. lia.
  - repeat constructor.
Defined.

(** * Further properties *)

(** ** Content sanitizer *)






(** X1: the sanitized text holds no zero-width unit and no byte-order mark,
    whatever the text was. *)
Theorem cleanMarkdownContent_never_invisible (x : jsstring) (c : N) :
  c ∈ cleanMarkdownContent x ->
  ~ (0x200B <= c <= 0x200D) /\ c <> 0xFEFF.
Proof.
  intros Hc. pose proof (cleanMarkdownContent_visible x) as Hall.
  rewrite Forall_forall in Hall. specialize (Hall c Hc). unfold isInvisible in Hall.
  apply orb_false_iff in Hall as [Hrange Hbom].
  apply andb_false_iff in Hrange. rewrite !N.leb_gt in Hrange.
  apply N.eqb_neq in Hbom. split; [lia | done].
Qed.

Lemma cleanMarkdownContent_never_invisible_witness :
  ~ (0x200B <= 66 <= 0x200D) /\ 66 <> 0xFEFF.
Proof.
  apply (cleanMarkdownContent_never_invisible ([0xFEFF] ++ js "Body") 66).
  vm_compute. apply list_elem_of_here.
Defined.

(** X2: the texts the sanitizer returns unchanged are exactly those without
    a zero-width unit or byte-order mark, without an ampersand between two
    spaces, and without a leading block between hyphens. *)
Theorem cleanMarkdownContent_fixed_point_iff (y : jsstring) :
  cleanMarkdownContent y = y <->
  Forall (fun c => isInvisible c = false) y /\
  includes (js " & ") y = false /\
  hasFrontMatter y = false.
Proof.
  split.
  - intros Hfix.
    assert (Forall (fun c => isInvisible c = false) y) as Hvisible.
    { rewrite <- Hfix. apply cleanMarkdownContent_visible. }
    split; [done |].
    destruct (includes (js " & ") y) eqn:Hamp.
    { by destruct (cleanMarkdownContent_unsettled _ Hvisible (or_introl Hamp)). }
    destruct (hasFrontMatter y) eqn:Hfront; [| done].
    by destruct (cleanMarkdownContent_unsettled _ Hvisible (or_intror Hfront)).
  - intros (Hvisible & Hamp & Hfront). by apply cleanMarkdownContent_settled.
Qed.

Lemma cleanMarkdownContent_fixed_point_iff_witness :
  cleanMarkdownContent (js "# Notes on R&D") = js "# Notes on R&D".
Proof.
  apply (proj2 (cleanMarkdownContent_fixed_point_iff (js "# Notes on R&D"))).
  split; [| split; reflexivity]. repeat constructor.
Defined.



(** ** Cleaned text and anchor *)

Lemma dropWhile_head f s c : head (dropWhile f s) = Some c -> f c = false.
Proof.
  induction s as [|d s IH]; simpl; [done |].
  destruct (f d) eqn:Hd; [done |]. by intros [= <-].
Qed.

Lemma dropWhile_id f s : (forall c, head s = Some c -> f c = false) -> dropWhile f s = s.
Proof. destruct s as [|d s]; [done |]. intros Hd. simpl. by rewrite (Hd d). Qed.

Lemma dropWhile_suffix f s : dropWhile f s `suffix_of` s.
Proof.
  induction s as [|d s IH]; simpl; [done |].
  destruct (f d); [by apply suffix_cons_r | done].
Qed.

Lemma last_rev (s : jsstring) : last (rev s) = head s.
Proof. destruct s as [|c s]; [done |]. simpl. by rewrite last_snoc. Qed.

Lemma head_rev (s : jsstring) : head (rev s) = last s.
Proof. by rewrite <- (rev_involutive s) at 2; rewrite last_rev. Qed.

(** Trimming cuts a part off both ends. *)
Lemma trim_infix s : exists before after, s = before ++ trim s ++ after.
Proof.
  unfold trim, trimEnd, trimStart.
  destruct (dropWhile_suffix isWhiteSpace s) as [before Hs].
  destruct (dropWhile_suffix isWhiteSpace (rev (dropWhile isWhiteSpace s))) as [k Hk].
  exists before, (rev k). rewrite Hs at 1. f_equal.
  rewrite <- (rev_involutive (dropWhile isWhiteSpace s)) at 1.
  set (t := dropWhile isWhiteSpace s) in *.
  set (d := dropWhile isWhiteSpace (rev t)) in *.
  by rewrite Hk, rev_app_distr.
Qed.

Lemma trim_last s c : last (trim s) = Some c -> isWhiteSpace c = false.
Proof. unfold trim, trimEnd. rewrite last_rev. apply dropWhile_head. Qed.

Lemma trim_head s c : head (trim s) = Some c -> isWhiteSpace c = false.
Proof.
  unfold trim, trimEnd, trimStart. intros Hc.
  destruct (dropWhile_suffix isWhiteSpace (rev (dropWhile isWhiteSpace s))) as [k Hk].
  apply (dropWhile_head isWhiteSpace s).
  set (t := dropWhile isWhiteSpace s) in *.
  set (d := dropWhile isWhiteSpace (rev t)) in *.
  rewrite <- (rev_involutive t), Hk, rev_app_distr.
  by destruct (rev d).
Qed.

Lemma trim_trimmed s :
  (forall c, head s = Some c -> isWhiteSpace c = false) ->
  (forall c, last s = Some c -> isWhiteSpace c = false) ->
  trim s = s.
Proof.
  intros Hhead Hlast. unfold trim, trimEnd, trimStart.
  rewrite (dropWhile_id _ s) by done. rewrite dropWhile_id.
  - apply rev_involutive.
  - intros c. rewrite head_rev. apply Hlast.
Qed.

Lemma trim_idempotent s : trim (trim s) = trim s.
Proof. apply trim_trimmed; [apply trim_head | apply trim_last]. Qed.

Lemma trim_Forall (P : N -> Prop) s : Forall P s -> Forall P (trim s).
Proof.
  intros Hs. destruct (trim_infix s) as (before & after & Hsplit).
  rewrite Hsplit in Hs. apply Forall_app in Hs as [_ Hs]. by apply Forall_app in Hs as [? _].
Qed.

Lemma filter_id (f : N -> bool) s : Forall (fun c => f c = true) s -> List.filter f s = s.
Proof. induction 1 as [|c s Hc _ IH]; simpl; [done | by rewrite Hc, IH]. Qed.

Lemma cleanText_no_asterisk text : Forall (fun c => negb (c =? 42) = true) (cleanText text).
Proof.
  rewrite cleanText_eq. apply trim_Forall.
  apply List.Forall_forall. intros c Hc. by apply List.filter_In in Hc as [_ ?].
Qed.

Lemma cleanText_idempotent text : cleanText (cleanText text) = cleanText text.
Proof.
  rewrite (cleanText_eq (cleanText text)).
  rewrite filter_id by apply cleanText_no_asterisk.
  rewrite cleanText_eq. apply trim_idempotent.
Qed.

(** X4: the cleaned text of a heading holds no asterisk, neither starts
    nor ends with white space, and cleaning it once more changes nothing. *)
Theorem cleanText_clean (text : jsstring) :
  (42 ∉ cleanText text) /\
  (forall c, head (cleanText text) = Some c -> isWhiteSpace c = false) /\
  (forall c, last (cleanText text) = Some c -> isWhiteSpace c = false) /\
  cleanText (cleanText text) = cleanText text.
Proof.
  split; [| split; [| split]].
  - intros Hin. pose proof (cleanText_no_asterisk text) as Hall.
    rewrite Forall_forall in Hall. by specialize (Hall 42 Hin).
  - rewrite cleanText_eq. apply trim_head.
  - rewrite cleanText_eq. apply trim_last.
  - apply cleanText_idempotent.
Qed.

Lemma cleanText_clean_witness : isWhiteSpace 81 = false.
Proof.
  apply (proj1 (proj2 (cleanText_clean (js " *Q.1)* ")))). reflexivity.
Defined.

Section Anchor.
Context `{UnicodeData}.

(** The run replacement never writes two hyphens in a row, and does not
    start with one inside a run. *)
Lemma replaceNonWordRunsFrom_hyphens inRun s :
  includes (js "--") (replaceNonWordRunsFrom inRun s) = false /\
  (inRun = true -> head (replaceNonWordRunsFrom inRun s) <> Some 45).
Proof.
  revert inRun. induction s as [|c s IH]; intros inRun; [done |].
  cbn [replaceNonWordRunsFrom]. destruct (isWordChar c) eqn:Hc.
  - destruct (IH false) as [IH1 _]. split.
    + rewrite includes_cons, IH1, orb_false_r.
      destruct (startsWith _ _) eqn:Hs; [| done].
      apply startsWith_true in Hs as [rest Hrest]. injection Hrest as -> _. done.
    + intros _ [= ->]. done.
  - destruct inRun; [apply IH |]. destruct (IH true) as [IH1 IH2]. split; [| done].
    rewrite includes_cons, IH1, orb_false_r.
    destruct (startsWith _ _) eqn:Hs; [| done].
    apply startsWith_true in Hs as [rest Hrest]. injection Hrest as Hrest.
    rewrite Hrest in IH2. by destruct (IH2 eq_refl).
Qed.

(** A unit of the result is a word unit of the text or a hyphen. *)
Lemma replaceNonWordRunsFrom_from (P : N -> Prop) inRun s :
  Forall P s -> P 45 -> Forall P (replaceNonWordRunsFrom inRun s).
Proof.
  intros Hs Hhyphen. revert inRun.
  induction Hs as [|c s Hc _ IH]; intros inRun; simpl; [done |].
  destruct (isWordChar c); [by constructor |].
  destruct inRun; [done | by constructor].
Qed.

(** A text of word units and single hyphens is its own replacement. *)
Lemma replaceNonWordRuns_id s :
  Forall (fun c => isWordChar c = true \/ c = 45) s ->
  includes (js "--") s = false ->
  replaceNonWordRuns s = s.
Proof.
  unfold replaceNonWordRuns. induction 1 as [|c s Hc Hs IH]; [done |].
  rewrite includes_cons, orb_false_iff. intros [Hhere Hlater].
  cbn [replaceNonWordRunsFrom]. destruct Hc as [Hc| ->].
  - rewrite Hc. f_equal. by apply IH.
  - change (isWordChar 45) with false. cbn iota. f_equal.
    destruct Hs as [|d s Hd Hs]; [done |].
    cbn [replaceNonWordRunsFrom]. destruct Hd as [Hd| ->].
    + specialize (IH Hlater). cbn [replaceNonWordRunsFrom] in IH.
      by rewrite Hd in IH |- *.
    + by cbn in Hhere.
Qed.

Lemma toLowerCase_ascii s : isAsciiText s -> toLowerCase s = map asciiLower s.
Proof.
  intros Hs. unfold toLowerCase.
  replace (forallb isAscii s) with true; [done |].
  symmetry. apply forallb_forall. intros c Hc.
  unfold isAsciiText in Hs. rewrite List.Forall_forall in Hs. by apply Hs.
Qed.

Lemma isSlugUnit_word c : isWordChar c = true -> isUpperAscii c = false -> isSlugUnit c = true.
Proof.
  unfold isWordChar, isUpperAscii, isSlugUnit.
  destruct (N.leb_spec 48 c), (N.leb_spec c 57), (N.leb_spec 65 c), (N.leb_spec c 90),
    (N.leb_spec 97 c), (N.leb_spec c 122), (N.eqb_spec c 95), (N.eqb_spec c 45);
    simpl; try done; lia.
Qed.

Lemma isSlugUnit_inv c :
  isSlugUnit c = true ->
  (isWordChar c = true \/ c = 45) /\ isAscii c = true /\ asciiLower c = c.
Proof.
  unfold isWordChar, isUpperAscii, isSlugUnit, isAscii, asciiLower, isUpperAscii.
  destruct (N.leb_spec 48 c), (N.leb_spec c 57), (N.leb_spec 65 c), (N.leb_spec c 90),
    (N.leb_spec 97 c), (N.leb_spec c 122), (N.eqb_spec c 95), (N.eqb_spec c 45),
    (N.ltb_spec c 128); simpl; try done; try lia; auto.
Qed.

Lemma asciiLower_not_upper c : isUpperAscii (asciiLower c) = false.
Proof.
  unfold asciiLower, isUpperAscii.
  destruct (N.leb_spec 65 c), (N.leb_spec c 90); simpl;
    destruct (N.leb_spec 65 (c + 32)), (N.leb_spec (c + 32) 90),
      (N.leb_spec 65 c), (N.leb_spec c 90); simpl; try done; lia.
Qed.

Lemma anchor_slug_units text : isAsciiText text -> Forall (fun c => isSlugUnit c = true) (anchor text).
Proof.
  intros Htext. unfold anchor. rewrite toLowerCase_ascii by done.
  pose proof (replaceNonWordRunsFrom_units false (map asciiLower text)) as Hword.
  pose proof (replaceNonWordRunsFrom_from (fun c => isUpperAscii c = false) false
                (map asciiLower text)) as Hlower.
  unfold replaceNonWordRuns.
  rewrite Forall_forall in Hword. rewrite Forall_forall. intros c Hc.
  destruct (Hword c Hc) as [Hw| ->]; [| done].
  apply isSlugUnit_word; [done |].
  assert (Forall (fun c => isUpperAscii c = false)
            (replaceNonWordRunsFrom false (map asciiLower text))) as Hall.
  { apply Hlower; [| done]. apply List.Forall_forall. intros d Hd.
    apply in_map_iff in Hd as (e & <- & _). apply asciiLower_not_upper. }
  rewrite Forall_forall in Hall. by apply Hall.
Qed.

(** X5: an anchor never holds two hyphens in a row; the anchor of an ASCII
    text is made of digits, small letters, underscores and hyphens, and is
    its own anchor. *)
Theorem anchor_slug (text : jsstring) :
  includes (js "--") (anchor text) = false /\
  (isAsciiText text ->
     Forall (fun c => isSlugUnit c = true) (anchor text) /\
     anchor (anchor text) = anchor text).
Proof.
  split; [apply replaceNonWordRunsFrom_hyphens |].
  intros Htext. pose proof (anchor_slug_units text Htext) as Hslug.
  split; [done |].
  assert (isAsciiText (anchor text)) as Hascii.
  { eapply Forall_impl; [apply Hslug |]. intros c Hc. by apply isSlugUnit_inv in Hc as (_ & ? & _). }
  unfold anchor at 1. rewrite toLowerCase_ascii by done.
  assert (map asciiLower (anchor text) = anchor text) as ->.
  { clear Hascii. induction Hslug as [|c s Hc _ IH]; [done |]. simpl.
    apply isSlugUnit_inv in Hc as (_ & _ & ->). by rewrite IH. }
  apply replaceNonWordRuns_id; [apply anchor_units | apply replaceNonWordRunsFrom_hyphens].
Qed.

End Anchor.

Lemma anchor_slug_witness :
  @anchor asciiUnicodeData (@anchor asciiUnicodeData (js "Q.1) -- Self-Awareness!")) =
  @anchor asciiUnicodeData (js "Q.1) -- Self-Awareness!").
Proof.
  apply (proj2 (@anchor_slug asciiUnicodeData (js "Q.1) -- Self-Awareness!"))).
  unfold isAsciiText. repeat constructor.
Defined.

(** ** Heading indexer, further *)

Section HeadingIndexerFurther.
Context `{UnicodeData}.

Lemma entriesOf_elem tocFilterRegex ceiling token entry :
  entry ∈ entriesOf tocFilterRegex ceiling token ->
  indexed ceiling token = true /\
  test tocFilterRegex (cleanText (Token.text token)) = true /\
  entry = tocEntryOf token.
Proof.
  unfold entriesOf. destruct (indexed ceiling token); [| by intros ?%elem_of_nil].
  destruct (test tocFilterRegex _); [| by intros ?%elem_of_nil].
  by intros ->%list_elem_of_singleton.
Qed.

(** X6: every entry the indexer returns has a text that the filter
    matches and that is clean, the anchor of this text as its anchor, and a
    level of at most [maxDepth]. *)
Theorem extractHeadings_entries_sound (tokens : list Token.t) (options : ExtractOptions)
    (entry : TocEntry.t) :
  entry ∈ (extractHeadings tokens options).1 ->
  test (default defaultTocFilter (tocFilter options)) (TocEntry.text entry) = true /\
  cleanText (TocEntry.text entry) = TocEntry.text entry /\
  TocEntry.anchor entry = anchor (TocEntry.text entry) /\
  (TocEntry.level entry <= default 4%nat (maxDepth options))%nat.
Proof.
  rewrite extractHeadings_eq. cbn [fst].
  intros (token & Hentry & _)%list_elem_of_bind.
  apply entriesOf_elem in Hentry as (Hindexed & Htest & ->).
  apply indexed_true in Hindexed as [_ Hdepth]. cbn [tocEntryOf TocEntry.text
    TocEntry.anchor TocEntry.level].
  split; [done |]. split; [apply cleanText_idempotent | done].
Qed.

Lemma reindexed_not_indexed ceiling ceiling' token :
  (ceiling' <= ceiling)%nat -> indexed ceiling' (reindexed ceiling token) = false.
Proof.
  intros Hle. unfold reindexed. destruct (indexed ceiling token) eqn:Hindexed; [done |].
  apply indexed_false in Hindexed. apply indexed_false.
  destruct Hindexed; [by left | right; lia].
Qed.

(** X7: indexing the array a second time, with a depth ceiling that is not
    higher, finds nothing: it returns no entry and leaves the array as the
    first call left it. *)
Theorem extractHeadings_again (tokens : list Token.t) (options options' : ExtractOptions) :
  (default 4%nat (maxDepth options') <= default 4%nat (maxDepth options))%nat ->
  extractHeadings (extractHeadings tokens options).2 options' =
    ([], (extractHeadings tokens options).2).
Proof.
  intros Hle. rewrite (extractHeadings_eq tokens). cbn [snd].
  rewrite extractHeadings_eq.
  set (ceiling := default 4%nat (maxDepth options)) in *.
  set (ceiling' := default 4%nat (maxDepth options')) in *.
  induction tokens as [|token tokens IH]; [done |].
  rewrite fmap_cons, bind_cons, fmap_cons.
  injection IH as IHtoc IHtokens. rewrite IHtoc, IHtokens.
  pose proof (reindexed_not_indexed ceiling ceiling' token Hle) as Hnot.
  unfold entriesOf. rewrite Hnot. cbn [andb app]. do 2 f_equal.
  unfold reindexed at 1. by rewrite Hnot.
Qed.

(** X8: a filter that matches more and a depth ceiling that is higher only
    add entries: the entries of the narrower call are among those of the
    wider one, in the same order. *)
Theorem extractHeadings_monotone (tokens : list Token.t) (narrow wide : RegExp)
    (low high : nat) :
  (forall text, test narrow text = true -> test wide text = true) ->
  (low <= high)%nat ->
  (extractHeadings tokens {| tocFilter := Some narrow; maxDepth := Some low |}).1
    `sublist_of`
  (extractHeadings tokens {| tocFilter := Some wide; maxDepth := Some high |}).1.
Proof.
  intros Hfilter Hle. rewrite !extractHeadings_eq. cbn [fst default from_option id
    tocFilter maxDepth].
  induction tokens as [|token tokens IH]; [done |].
  rewrite !bind_cons. apply sublist_app; [| done].
  unfold entriesOf. destruct (indexed low token) eqn:Hlow; [| apply sublist_nil_l].
  destruct (test narrow _) eqn:Hnarrow; [| apply sublist_nil_l].
  apply indexed_true in Hlow as [Hheading Hdepth].
  rewrite (proj2 (indexed_true high token)) by (split; [done | lia]).
  by rewrite (Hfilter _ Hnarrow).
Qed.

(** X9: in the table of contents of a conversion, where the ceiling is 4,
    the indented items are exactly those of level 4. *)
Theorem orchestrator_toc_indent (tokens : list Token.t) (tocFilterRegex : RegExp)
    (entry : TocEntry.t) :
  entry ∈ (extractHeadings tokens (orchestratorOptions tocFilterRegex)).1 ->
  tocItemHtml entry =
    js "<li class=" ++ dquote ++
    (if bool_decide (TocEntry.level entry = 4%nat) then js "toc-indent" else []) ++
    dquote ++ js "><a href=" ++ dquote ++ js "#" ++ TocEntry.anchor entry ++ dquote ++
    js ">" ++ TocEntry.text entry ++ js "</a></li>".
Proof.
  rewrite extractHeadings_eq. cbn [fst].
  intros (token & Hentry & _)%list_elem_of_bind.
  apply entriesOf_elem in Hentry as (Hindexed & _ & ->).
  apply indexed_true in Hindexed as [_ Hdepth]. cbn in Hdepth.
  unfold tocItemHtml. cbn [tocEntryOf TocEntry.level TocEntry.anchor TocEntry.text].
  replace (bool_decide (Token.depth token = 4%nat)) with (3 <? Token.depth token)%nat;
    [done |].
  destruct (Nat.ltb_spec 3 (Token.depth token)).
  - rewrite bool_decide_eq_true_2; [done | lia].
  - rewrite bool_decide_eq_false_2; [done | lia].
Qed.

End HeadingIndexerFurther.

Lemma extractHeadings_entries_sound_witness :
  test defaultTocFilter (js "Topic One") = true /\
  cleanText (js "Topic One") = js "Topic One" /\
  js "topic-one" = @anchor asciiUnicodeData (js "Topic One") /\
  (3 <= 4)%nat.
Proof.
  apply (@extractHeadings_entries_sound asciiUnicodeData sampleTokens
           (orchestratorOptions defaultTocFilter)
           {| TocEntry.anchor := js "topic-one"; TocEntry.level := 3;
              TocEntry.text := js "Topic One" |}).
  vm_compute. apply list_elem_of_here.
Defined.

Lemma extractHeadings_again_witness :
  @extractHeadings asciiUnicodeData
    (@extractHeadings asciiUnicodeData sampleTokens (orchestratorOptions defaultTocFilter)).2
    (orchestratorOptions matchAll) =
  ([], (@extractHeadings asciiUnicodeData sampleTokens (orchestratorOptions defaultTocFilter)).2).
Proof.
  apply (@extractHeadings_again asciiUnicodeData sampleTokens
           (orchestratorOptions defaultTocFilter) (orchestratorOptions matchAll)).
  simpl. lia.
Defined.

Lemma extractHeadings_monotone_witness :
  (@extractHeadings asciiUnicodeData sampleTokens
     {| tocFilter := Some defaultTocFilter; maxDepth := Some 4%nat |}).1
    `sublist_of`
  (@extractHeadings asciiUnicodeData sampleTokens
     {| tocFilter := Some matchAll; maxDepth := Some 6%nat |}).1.
Proof.
  apply (@extractHeadings_monotone asciiUnicodeData sampleTokens defaultTocFilter matchAll 4 6).
  - intros text _. reflexivity.
  - lia.
Defined.

Lemma orchestrator_toc_indent_witness :
  tocItemHtml {| TocEntry.anchor := js "topic-one"; TocEntry.level := 3;
                 TocEntry.text := js "Topic One" |} =
    js "<li class=" ++ dquote ++ dquote ++ js "><a href=" ++ dquote ++ js "#" ++
    js "topic-one" ++ dquote ++ js ">" ++ js "Topic One" ++ js "</a></li>".
Proof.
  apply (@orchestrator_toc_indent asciiUnicodeData sampleTokens defaultTocFilter
           {| TocEntry.anchor := js "topic-one"; TocEntry.level := 3;
              TocEntry.text := js "Topic One" |}).
  vm_compute. apply list_elem_of_here.
Defined.

(** ** Conversion orchestrator, further *)

Section OrchestratorFurther.
Context `{UnicodeData}.

(** The ways a call of [convertMdToPdf] can go. *)
Lemma convertMdToPdf_cases w inputFile outputFile options :
  let inputPath := path_resolve w inputFile in
  let tocFilter :=
    default (js "Topic|Summary|Section|Detailed") (ConversionOptions.tocFilter options) in
  (fs_existsSync w inputPath = false /\
   convertMdToPdf w inputFile outputFile options = Returned (notFoundResult inputFile)) \/
  (fs_existsSync w inputPath = true /\
   resolveChromePath w (ConversionOptions.chromePath options) = None /\
   convertMdToPdf w inputFile outputFile options = Returned noChromeResult) \/
  (exists error chromePath,
     fs_existsSync w inputPath = true /\
     resolveChromePath w (ConversionOptions.chromePath options) = Some chromePath /\
     convertMdToPdf w inputFile outputFile options = Thrown error) \/
  (exists chromePath rawContent tokens tocFilterRegex bodyContent,
     fs_existsSync w inputPath = true /\
     resolveChromePath w (ConversionOptions.chromePath options) = Some chromePath /\
     fs_readFileSync w inputPath = Returned rawContent /\
     marked_lexer w (cleanMarkdownContent rawContent) = Returned tokens /\
     RegExp_new w tocFilter (js "i") = Returned tocFilterRegex /\
     marked_parser w (extractHeadings tokens (orchestratorOptions tocFilterRegex)).2 =
       Returned bodyContent /\
     convertMdToPdf w inputFile outputFile options =
       match printPdf w chromePath
               (fullHtmlOf w options
                  (extractHeadings tokens (orchestratorOptions tocFilterRegex)).1
                  bodyContent)
               (pdfOptionsOf w outputFile options) with
       | Returned _ => Returned (successResult w outputFile)
       | Thrown error => Returned (failedResult error)
       end).
Proof.
  intros inputPath tocFilter.
  destruct (fs_existsSync w inputPath) eqn:Hexists.
  2: { left. split; [done |]. unfold convertMdToPdf. fold inputPath. by rewrite Hexists. }
  right.
  destruct (resolveChromePath w (ConversionOptions.chromePath options)) as [chromePath|]
    eqn:Hchrome.
  2: { left. split; [done |]. split; [done |]. unfold convertMdToPdf. fold inputPath.
       by rewrite Hexists, Hchrome. }
  right.
  destruct (marked_setOptions w) as [[]|error] eqn:Hset.
  2: { left. exists error, chromePath. do 2 (split; [done |]).
       unfold convertMdToPdf, configureMarked. fold inputPath.
       by rewrite Hexists, Hchrome, Hset. }
  destruct (fs_readFileSync w inputPath) as [rawContent|error] eqn:Hread.
  2: { left. exists error, chromePath. do 2 (split; [done |]).
       apply (convertMdToPdf_propagates _ _ _ _ chromePath); auto. }
  destruct (marked_lexer w (cleanMarkdownContent rawContent)) as [tokens|error] eqn:Hlex.
  2: { left. exists error, chromePath. do 2 (split; [done |]).
       apply (convertMdToPdf_propagates _ _ _ _ chromePath); eauto. }
  destruct (RegExp_new w tocFilter (js "i")) as [tocFilterRegex|error] eqn:Hre.
  2: { left. exists error, chromePath. do 2 (split; [done |]).
       apply (convertMdToPdf_propagates _ _ _ _ chromePath); eauto 10. }
  destruct (marked_parser w (extractHeadings tokens (orchestratorOptions tocFilterRegex)).2)
    as [bodyContent|error] eqn:Hparse.
  2: { left. exists error, chromePath. do 2 (split; [done |]).
       apply (convertMdToPdf_propagates _ _ _ _ chromePath); eauto 12. }
  right. exists chromePath, rawContent, tokens, tocFilterRegex, bodyContent.
  repeat (split; [done |]).
  by rewrite (convertMdToPdf_prepared _ _ _ _ _ _ _ _ _
                Hexists Hchrome Hset Hread Hlex Hre Hparse).
Qed.

(** X10: a result that [convertMdToPdf] returns is one of four: the
    success, with the resolved output path, or one of three failures,
    without output path: input file not found, browser not found, PDF
    generation failed with the message of the exception. *)
Theorem convertMdToPdf_results (w : World) (inputFile outputFile : jsstring)
    (options : ConversionOptions.t) (result : ConversionResult) :
  convertMdToPdf w inputFile outputFile options = Returned result ->
  (result = successResult w outputFile \/
   result = notFoundResult inputFile \/
   result = noChromeResult \/
   exists error, result = failedResult error) /\
  (success result = true <-> outputPath result = Some (path_resolve w outputFile)) /\
  (success result = false <-> outputPath result = None).
Proof.
  intros Hresult.
  assert (result = successResult w outputFile \/ result = notFoundResult inputFile \/
          result = noChromeResult \/ exists error, result = failedResult error) as Hform.
  { destruct (convertMdToPdf_cases w inputFile outputFile options)
      as [[_ Hr]|[(_ & _ & Hr)|[(error & ? & _ & _ & Hr)|(chromePath & rawContent & tokens & re & body &
          _ & _ & _ & _ & _ & _ & Hr)]]]; rewrite Hr in Hresult.
    - injection Hresult as <-. auto.
    - injection Hresult as <-. auto.
    - done.
    - destruct (printPdf w _ _ _) as [?|error]; injection Hresult as <-; eauto. }
  split; [done |].
  destruct Hform as [->|[->|[->|[error ->]]]]; cbn; split; split; done.
Qed.

(** X11: [convertMdToPdf] reports success only when the input file exists,
    every step in front of the PDF generation returned, and the browser was
    launched, the document loaded, the PDF printed with the options of the
    call and the browser closed, each without an exception. *)
Theorem convertMdToPdf_success_printed (w : World) (inputFile outputFile : jsstring)
    (options : ConversionOptions.t) (result : ConversionResult) :
  convertMdToPdf w inputFile outputFile options = Returned result ->
  success result = true ->
  fs_existsSync w (path_resolve w inputFile) = true /\
  exists chromePath rawContent tokens tocFilterRegex bodyContent browser page,
    resolveChromePath w (ConversionOptions.chromePath options) = Some chromePath /\
    fs_readFileSync w (path_resolve w inputFile) = Returned rawContent /\
    marked_lexer w (cleanMarkdownContent rawContent) = Returned tokens /\
    RegExp_new w (default (js "Topic|Summary|Section|Detailed")
                    (ConversionOptions.tocFilter options)) (js "i") =
      Returned tocFilterRegex /\
    marked_parser w (extractHeadings tokens (orchestratorOptions tocFilterRegex)).2 =
      Returned bodyContent /\
    puppeteer_launch w chromePath true = Returned browser /\
    browser_newPage w browser = Returned page /\
    page_setContent w page
      (fullHtmlOf w options
         (extractHeadings tokens (orchestratorOptions tocFilterRegex)).1 bodyContent)
      (js "networkidle0") = Returned tt /\
    page_pdf w page (pdfOptionsOf w outputFile options) = Returned tt /\
    browser_close w browser = Returned tt.
Proof.
  intros Hresult Hsuccess.
  destruct (convertMdToPdf_cases w inputFile outputFile options)
    as [[_ Hr]|[(_ & _ & Hr)|[(error & ? & _ & _ & Hr)|(chromePath & rawContent & tokens & re & body &
        Hexists & Hchrome & Hread & Hlex & Hre & Hparse & Hr)]]]; rewrite Hr in Hresult.
  - injection Hresult as <-. done.
  - injection Hresult as <-. done.
  - done.
  - split; [done |].
    destruct (printPdf w _ _ _) as [[]|error] eqn:Hprint; injection Hresult as <-; [| done].
    revert Hprint. unfold printPdf.
    destruct (puppeteer_launch w chromePath true) as [browser|?] eqn:Hlaunch;
      cbn [mbind outcome_bind]; [| done].
    destruct (browser_newPage w browser) as [page|?] eqn:Hpage;
      cbn [mbind outcome_bind]; [| done].
    destruct (page_setContent w page _ _) as [[]|?] eqn:Hcontent;
      cbn [mbind outcome_bind]; [| done].
    destruct (page_pdf w page _) as [[]|?] eqn:Hpdf; cbn [mbind outcome_bind]; [| done].
    intros Hclose.
    exists chromePath, rawContent, tokens, re, body, browser, page.
    repeat (split; [done |]). done.
Qed.

Lemma results_distinct w inputFile outputFile error :
  notFoundResult inputFile <> noChromeResult /\
  failedResult error <> notFoundResult inputFile /\
  failedResult error <> noChromeResult /\
  successResult w outputFile <> notFoundResult inputFile /\
  successResult w outputFile <> noChromeResult.
Proof.
  repeat split; intros [= Hm]; apply (f_equal head) in Hm; vm_compute in Hm; done.
Qed.

Lemma convertMdToPdf_missing_input w inputFile outputFile options :
  fs_existsSync w (path_resolve w inputFile) = false ->
  convertMdToPdf w inputFile outputFile options = Returned (notFoundResult inputFile).
Proof. intros Hmissing. unfold convertMdToPdf. by rewrite Hmissing. Qed.

(** X12: the failure for a missing input file is returned exactly when the
    resolved input path does not exist, and the failure for a missing
    browser exactly when it exists and neither the option nor the detection
    gives a browser path. *)
Theorem convertMdToPdf_prechecks (w : World) (inputFile outputFile : jsstring)
    (options : ConversionOptions.t) :
  (convertMdToPdf w inputFile outputFile options = Returned (notFoundResult inputFile) <->
   fs_existsSync w (path_resolve w inputFile) = false) /\
  (convertMdToPdf w inputFile outputFile options = Returned noChromeResult <->
   fs_existsSync w (path_resolve w inputFile) = true /\
   resolveChromePath w (ConversionOptions.chromePath options) = None).
Proof.
  destruct (convertMdToPdf_cases w inputFile outputFile options)
    as [[Hexists Hr]|[(Hexists & Hchrome & Hr)|[(error & ? & Hexists & Hchrome & Hr)|(chromePath & rawContent &
        tokens & re & body & Hexists & Hchrome & _ & _ & _ & _ & Hr)]]]; rewrite Hr.
  - destruct (results_distinct w inputFile outputFile []) as (Hne & _).
    split; split; intros Hx;
      first [done | congruence | (destruct Hx; congruence)].
  - destruct (results_distinct w inputFile outputFile []) as (Hne & _).
    split; split; intros Hx;
      first [done | congruence | (destruct Hx; congruence)].
  - split; split; intros Hx; first [done | congruence | (destruct Hx; congruence)].
  - destruct (printPdf w _ _ _) as [?|error];
      [destruct (results_distinct w inputFile outputFile []) as (_ & _ & _ & ? & ?)
      |destruct (results_distinct w inputFile outputFile error) as (_ & ? & ? & _)];
      split; split; intros Hx;
        first [done | congruence | (destruct Hx; congruence)].
Qed.

(** X13: without table of contents the pattern of the filter has no effect
    on the conversion, as long as it compiles: the headings get their
    anchors all the same, and the document that is printed is the same. *)
Theorem convertMdToPdf_noToc_filter (w : World) (inputFile outputFile : jsstring)
    (options : ConversionOptions.t) (pattern pattern' : jsstring)
    (compiled compiled' : RegExp) :
  ConversionOptions.noToc options = Some true ->
  RegExp_new w pattern (js "i") = Returned compiled ->
  RegExp_new w pattern' (js "i") = Returned compiled' ->
  convertMdToPdf w inputFile outputFile (withTocFilter options pattern) =
  convertMdToPdf w inputFile outputFile (withTocFilter options pattern').
Proof.
  intros HnoToc Hre Hre'. unfold convertMdToPdf.
  cbn [withTocFilter ConversionOptions.chromePath ConversionOptions.noToc
       ConversionOptions.tocTitle ConversionOptions.tocFilter ConversionOptions.format
       ConversionOptions.landscape ConversionOptions.marginTop
       ConversionOptions.marginBottom ConversionOptions.marginLeft
       ConversionOptions.marginRight default from_option id].
  rewrite HnoToc. cbn [default from_option id].
  destruct (negb _); [done |]. destruct (resolveChromePath w _); [| done].
  destruct (configureMarked w); cbn [mbind outcome_bind]; [| done].
  destruct (fs_readFileSync w _); cbn [mbind outcome_bind]; [| done].
  destruct (marked_lexer w _) as [tokens|]; cbn [mbind outcome_bind]; [| done].
  rewrite Hre, Hre'. cbn [mbind outcome_bind].
  rewrite !extractHeadings_eq. done.
Qed.

End OrchestratorFurther.

Lemma convertMdToPdf_results_witness :
  (successResult (sampleWorld false) (js "notes.pdf") =
     successResult (sampleWorld false) (js "notes.pdf") \/
   successResult (sampleWorld false) (js "notes.pdf") = notFoundResult (js "notes.md") \/
   successResult (sampleWorld false) (js "notes.pdf") = noChromeResult \/
   exists error, successResult (sampleWorld false) (js "notes.pdf") = failedResult error).
Proof.
  apply (@convertMdToPdf_results asciiUnicodeData (sampleWorld false) (js "notes.md")
           (js "notes.pdf") noOptions).
  reflexivity.
Defined.

Lemma convertMdToPdf_success_printed_witness :
  fs_existsSync (sampleWorld false) (path_resolve (sampleWorld false) (js "notes.md")) = true.
Proof.
  apply (@convertMdToPdf_success_printed asciiUnicodeData (sampleWorld false)
           (js "notes.md") (js "notes.pdf") noOptions
           (successResult (sampleWorld false) (js "notes.pdf"))); reflexivity.
Defined.

Lemma convertMdToPdf_prechecks_witness :
  @convertMdToPdf asciiUnicodeData (sampleWorld false) (js "missing.md") (js "missing.pdf")
    noOptions = Returned (notFoundResult (js "missing.md")).
Proof.
  apply (proj1 (@convertMdToPdf_prechecks asciiUnicodeData (sampleWorld false)
                  (js "missing.md") (js "missing.pdf") noOptions)).
  reflexivity.
Defined.

Lemma convertMdToPdf_noToc_filter_witness :
  @convertMdToPdf asciiUnicodeData (sampleWorld false) (js "notes.md") (js "notes.pdf")
    (withTocFilter noTocOptions (js "Topic")) =
  @convertMdToPdf asciiUnicodeData (sampleWorld false) (js "notes.md") (js "notes.pdf")
    (withTocFilter noTocOptions (js "Summary")).
Proof.
  apply (@convertMdToPdf_noToc_filter asciiUnicodeData (sampleWorld false) (js "notes.md")
           (js "notes.pdf") noTocOptions (js "Topic") (js "Summary")
           defaultTocFilter defaultTocFilter); reflexivity.
Defined.

(** ** Browser detection, document assembly and command line *)

Lemma find_first {A : Type} (f : A -> bool) (l : list A) (x : A) :
  List.find f l = Some x ->
  exists before after,
    l = before ++ x :: after /\ f x = true /\ Forall (fun y => f y = false) before.
Proof.
  induction l as [|y l IH]; [done |]. simpl. destruct (f y) eqn:Hy.
  - intros [= ->]. by exists [], l.
  - intros Hfind. destruct (IH Hfind) as (before & after & -> & Hx & Hbefore).
    exists (y :: before), after. repeat split; [done | by constructor].
Qed.

Lemma find_nothing {A : Type} (f : A -> bool) (l : list A) :
  List.find f l = None -> Forall (fun y => f y = false) l.
Proof.
  induction l as [|y l IH]; [done |]. simpl. destruct (f y) eqn:Hy; [done |].
  intros Hfind. constructor; [done | by apply IH].
Qed.

(** X14: the detection returns the first path of the list of the platform
    that is not empty and exists: every path in front of it is empty or
    missing; it returns nothing only when every path of the list is empty or
    missing. *)
Theorem findChromePath_first (w : World) :
  match findChromePath w with
  | Some chromePath =>
      exists before after,
        CHROME_PATHS w = before ++ chromePath :: after /\
        chromePath <> [] /\
        fs_existsSync w chromePath = true /\
        Forall (fun candidate => candidate = [] \/ fs_existsSync w candidate = false) before
  | None =>
      Forall (fun candidate => candidate = [] \/ fs_existsSync w candidate = false)
        (CHROME_PATHS w)
  end.
Proof.
  assert (forall candidate,
            truthy candidate && fs_existsSync w candidate = false ->
            candidate = [] \/ fs_existsSync w candidate = false) as Hcandidate.
  { intros candidate [Hempty|Hmissing]%andb_false_iff; [left | by right].
    unfold truthy in Hempty. apply negb_false_iff in Hempty. by apply bool_decide_eq_true in Hempty. }
  unfold findChromePath. destruct (List.find _ _) as [chromePath|] eqn:Hfind.
  - apply find_first in Hfind as (before & after & Hsplit & Hok & Hbefore).
    apply andb_true_iff in Hok as [Htruthy Hexists].
    exists before, after. split; [done |]. split.
    { unfold truthy in Htruthy. apply negb_true_iff in Htruthy.
      by apply bool_decide_eq_false in Htruthy. }
    split; [done |]. eapply Forall_impl; [apply Hbefore |]. apply Hcandidate.
  - apply find_nothing in Hfind. eapply Forall_impl; [apply Hfind |]. apply Hcandidate.
Qed.

(** X15: the document holds the table of contents and the body as they
    are, the table first, between the opening and the closing of the body
    element; what stands in front of them depends on the styles only. *)
Theorem generateFullHtml_embeds (styles : Styles) (customStyles : option jsstring) :
  exists head,
    forall tocHtml bodyContent,
      generateFullHtml styles tocHtml bodyContent customStyles =
        head ++ newline ++ js "    <body>" ++
        newline ++ js "        " ++ tocHtml ++
        newline ++ js "        " ++ bodyContent ++
        newline ++ js "    </body>" ++
        newline ++ js "    </html>" ++
        newline ++ js "    ".
Proof.
  exists (joinLines
    [ js "    <!DOCTYPE html>";
      js "    <html>";
      js "    <head>";
      js "        <meta charset=" ++ dquote ++ js "UTF-8" ++ dquote ++ js ">";
      js "        <link rel=" ++ dquote ++ js "stylesheet" ++ dquote ++ js " href=" ++
        dquote ++ highlightTheme styles ++ dquote ++ js ">";
      js "        <script>";
      js "        window.MathJax = {";
      js "            tex: { inlineMath: [['$', '$'], ['\\(', '\\)']] },";
      js "            svg: { fontCache: 'global' }";
      js "        };";
      js "        </script>";
      js "        <script id=" ++ dquote ++ js "MathJax-script" ++ dquote ++
        js " async src=" ++ dquote ++ mathJaxUrl styles ++ dquote ++ js "></script>";
      js "        <style>";
      js "            " ++ defaultStyles styles;
      js "            " ++ default [] customStyles;
      js "        </style>";
      js "    </head>" ]).
  intros tocHtml bodyContent. unfold generateFullHtml, joinLines.
  cbn [map concat]. rewrite !app_nil_r. by rewrite <- !app_assoc.
Qed.

Lemma equalsIgnoreCase_length p s : equalsIgnoreCase p s = true -> length p = length s.
Proof.
  unfold equalsIgnoreCase. intros Heq%bool_decide_eq_true.
  apply (f_equal length) in Heq. by rewrite !length_map in Heq.
Qed.

(** The replacement at the end, read from the end: the last units of the
    text, as many as the pattern has, are compared with the pattern. *)
Lemma replaceAtEndIgnoreCase_eq pat rep s :
  replaceAtEndIgnoreCase pat rep s =
    if equalsIgnoreCase pat (drop (length s - length pat) s)
    then take (length s - length pat) s ++ rep
    else s.
Proof.
  induction s as [|c s IH]; cbn [replaceAtEndIgnoreCase].
  - rewrite drop_nil, take_nil. by destruct (equalsIgnoreCase pat []).
  - destruct (equalsIgnoreCase pat (c :: s)) eqn:Hhere.
    + pose proof (equalsIgnoreCase_length _ _ Hhere) as Hlen. rewrite Hlen, Nat.sub_diag.
      by rewrite drop_0, take_0, Hhere.
    + rewrite IH. destruct (decide (length pat <= length s)%nat) as [Hle|Hgt].
      * replace (length (c :: s) - length pat)%nat with (S (length s - length pat))
          by (simpl; lia).
        cbn [drop take]. by destruct (equalsIgnoreCase pat _).
      * replace (length (c :: s) - length pat)%nat with 0%nat by (simpl; lia).
        replace (length s - length pat)%nat with 0%nat by lia.
        rewrite !drop_0, Hhere.
        destruct (equalsIgnoreCase pat s) eqn:Hs; [| done].
        apply equalsIgnoreCase_length in Hs. lia.
Qed.

(** X16: an output name given on the command line, unless empty, is
    taken as it is.  Otherwise the name is the input name with its last
    three units replaced by .pdf when these are .md in any letter case, and
    the input name itself when they are not: the PDF is then written to the
    path of the input. *)
Theorem outputFileOf_spec (options : CliOptions.t) (inputFile : jsstring) :
  (forall output,
     CliOptions.output options = Some output -> output <> [] ->
     outputFileOf options inputFile = output) /\
  (CliOptions.output options = None \/ CliOptions.output options = Some [] ->
     outputFileOf options inputFile =
       if equalsIgnoreCase (js ".md") (drop (length inputFile - 3) inputFile)
       then take (length inputFile - 3) inputFile ++ js ".pdf"
       else inputFile).
Proof.
  unfold outputFileOf. split.
  - intros output -> Hne. unfold truthy. by rewrite bool_decide_eq_false_2.
  - intros [-> | ->]; cbn [truthy]; apply replaceAtEndIgnoreCase_eq.
Qed.

Lemma outputFileOf_spec_witness :
  outputFileOf plainCliOptions (js "Notes.MD") = js "Notes.pdf" /\
  outputFileOf plainCliOptions (js "notes.txt") = js "notes.txt".
Proof.
  split.
  - apply (proj2 (outputFileOf_spec plainCliOptions (js "Notes.MD"))). by left.
  - apply (proj2 (outputFileOf_spec plainCliOptions (js "notes.txt"))). by left.
Defined.

Section CommandLine.
Context `{UnicodeData}.

(** X17: the command exits with 0 exactly when the conversion returns a
    success, and with 1 otherwise.  An exception that leaves the conversion
    is reported on the error stream as an unexpected error; a missing input
    file ends the run with the failure line and exit code 1. *)
Theorem main_exit_code (w : World) (chalk : Chalk) (version : jsstring)
    (options : CliOptions.t) (inputFile : jsstring) :
  let run := main w chalk version options inputFile in
  let conversion :=
    convertMdToPdf w inputFile (outputFileOf options inputFile)
      (conversionOptionsOf options) in
  (exitCode run = 0%nat <->
   exists result, conversion = Returned result /\ success result = true) /\
  (exitCode run = 0%nat \/ exitCode run = 1%nat) /\
  (forall error,
     conversion = Thrown error ->
     exitCode run = 1%nat /\
     stderr run = [red chalk ([0x274C] ++ js " Unexpected error: " ++ error)]) /\
  (fs_existsSync w (path_resolve w inputFile) = false ->
     exitCode run = 1%nat /\
     stderr run = [] /\
     last (stdout run) =
       Some (red chalk ([0x274C] ++ js " Error: " ++ js "Input file not found: " ++
                        dquote ++ inputFile ++ dquote))).
Proof.
  intros run conversion.
  assert (fs_existsSync w (path_resolve w inputFile) = false ->
          conversion = Returned (notFoundResult inputFile)) as Hmissing.
  { apply convertMdToPdf_missing_input. }
  subst run. unfold main. fold conversion.
  destruct conversion as [result|error] eqn:Hconversion.
  - destruct (success result) eqn:Hsuccess; cbn [exitCode stderr stdout].
    + split; [split; [eauto | done] |]. split; [by left |]. split; [done |].
      intros Hno. specialize (Hmissing Hno). injection Hmissing as ->. done.
    + split; [split; [done | intros (r & [= <-] & ?); congruence] |].
      split; [by right |]. split; [done |].
      intros Hno. specialize (Hmissing Hno). injection Hmissing as ->.
      split; [done |]. split; [done |]. by rewrite last_snoc.
  - cbn [exitCode stderr stdout].
    split; [split; [done | by intros (r & ? & _)] |].
    split; [by right |]. split; [by intros ? [= ->] |].
    intros Hno. by specialize (Hmissing Hno).
Qed.

(** The defaults of the command line are those of the library: a command
    without flags converts like a library call without options. *)
Example main_defaults (w : World) (inputFile outputFile : jsstring) :
  convertMdToPdf w inputFile outputFile (conversionOptionsOf plainCliOptions) =
  convertMdToPdf w inputFile outputFile noOptions.
Proof. reflexivity. Qed.

End CommandLine.

Lemma main_exit_code_witness :
  exitCode (@main asciiUnicodeData (sampleWorld false) plainChalk (js "1.0.0")
              plainCliOptions (js "missing.md")) = 1%nat.
Proof.
  apply (proj2 (proj2 (proj2 (@main_exit_code asciiUnicodeData (sampleWorld false)
           plainChalk (js "1.0.0") plainCliOptions (js "missing.md"))))).
  reflexivity.
Defined.
